(** * LogCollector: source registry and CLI views

    A shallow embedding of [log_collector/source_manager.py] (class
    [SourceManager]) and of the flows and views of [log_collector/cli.py]
    that read or show sources and HEC settings, followed by the
    properties of the specification that concern them and by further
    properties of the code.

    Python dictionaries are finite maps with string keys, the values a
    source dictionary holds are the scalars the CLI and the JSON store put
    there, a [return] of a result dictionary is a constructor of a small
    result type, and a raised exception is the [Raised] outcome. Floats
    and containers are not among the values, and [Path.exists] is taken to
    answer: no statement below says which exceptions the code can raise
    beyond the ones shown. *)

From Stdlib Require Import Ascii.
From stdpp Require Import gmap strings list fin_maps pretty.

Open Scope string_scope.
Open Scope list_scope.
Open Scope Z_scope.

(** ** Python values, exceptions and outcomes *)

Inductive pyval :=
  | VNone
  | VBool (b : bool)
  | VInt (n : Z)
  | VStr (s : string).

Abbreviation dict := (gmap string pyval).

Inductive pyexn :=
  | ValueError
  | TypeError
  | KeyError (key : string).

Inductive outcome (A : Type) :=
  | Returned (a : A)
  | Raised (e : pyexn).
Arguments Returned {A} a.
Arguments Raised {A} e.

#[global] Instance outcome_ret : MRet outcome := fun A a => Returned a.
#[global] Instance outcome_bind : MBind outcome := fun A B f m =>
  match m with
  | Returned a => f a
  | Raised e => Raised e
  end.

(** [d[k]]: a missing key raises [KeyError]. *)
Definition getitem (d : dict) (k : string) : outcome pyval :=
  match d !! k with
  | Some v => Returned v
  | None => Raised (KeyError k)
  end.

(** [k in d]. *)
Definition contains (d : dict) (k : string) : bool :=
  match d !! k with
  | Some _ => true
  | None => false
  end.

(** [v == s] for a string literal [s]: only a string can be equal to it. *)
Definition py_eq_str (v : pyval) (s : string) : bool :=
  match v with
  | VStr t => String.eqb t s
  | _ => false
  end.

(** [d.get(k) == s]: a missing key gives [None], which equals no string. *)
Definition get_eq_str (d : dict) (k s : string) : bool :=
  match d !! k with
  | Some v => py_eq_str v s
  | None => false
  end.

(** [str(v)], which is also what an f-string field prints. *)
Definition py_str (v : pyval) : string :=
  match v with
  | VNone => "None"
  | VBool true => "True"
  | VBool false => "False"
  | VInt n => pretty n
  | VStr s => s
  end.

(** ** Results returned to the caller *)

(** [{"valid": True}] and [{"valid": False, "error": error}]. *)
Inductive validation :=
  | Valid
  | Invalid (error : string).

(** [{"success": True}], [{"success": True, "source_id": id}] and
    [{"success": False, "error": error}]. *)
Inductive result :=
  | Success
  | SuccessId (source_id : string)
  | Failure (error : string).

(** What [requests.post] does: a response with its status code, or an
    exception with its message. *)
Inductive post_result :=
  | Response (status_code : Z)
  | PostRaised (msg : string).

(** ** The registry *)

Record SourceManager := { sources : gmap string dict }.

(** ** What the module takes from outside

    The constants come from [log_collector.config], which also provides
    [save_sources]; the rest is the behaviour of the Python library and of
    the host during one call: the integer a string denotes for [int] (or
    [None] when [int] raises [ValueError]), the file system under a folder
    path, the HEC endpoint, and the identifier [uuid.uuid4] draws. An
    operation of the file system that fails gives the text of its
    exception. *)
Record Env := {
  DEFAULT_UDP_PROTOCOL : pyval;
  DEFAULT_HEC_BATCH_SIZE : pyval;
  DEFAULT_FOLDER_BATCH_SIZE : pyval;
  DEFAULT_HEALTH_CHECK_INTERVAL : pyval;
  int_of_str : string → option Z;
  path_exists : string → bool;
  makedirs : string → option string;
  write_test_file : string → option string;
  requests_post : pyval → pyval → pyval → post_result;
  save_sources : gmap string dict → bool;
  uuid4 : string;
  valid_ipv4 : string → bool
}.

Section source_manager.
Context (env : Env).

(** [int(v)]. *)
Definition py_int (v : pyval) : outcome Z :=
  match v with
  | VInt n => Returned n
  | VBool b => Returned (if b then 1 else 0)
  | VStr s =>
      match int_of_str env s with
      | Some n => Returned n
      | None => Raised ValueError
      end
  | VNone => Raised TypeError
  end.

(** [Path(v)]: only a string is a path. *)
Definition py_path (v : pyval) : outcome string :=
  match v with
  | VStr s => Returned s
  | _ => Raised TypeError
  end.

Definition required_fields : list string :=
  ["source_name"; "source_ip"; "listener_port"; "target_type"].

(** The loop over [required_fields]: the first field that is absent. *)
Fixpoint first_missing (fields : list string) (source_data : dict)
    : option string :=
  match fields with
  | [] => None
  | field :: rest =>
      if contains source_data field then first_missing rest source_data
      else Some field
  end.

(** The [Folder] branch of [validate_source]. *)
Definition validate_folder_target (source_data : dict) : outcome validation :=
  match source_data !! "folder_path" with
  | None => Returned (Invalid "Folder path is required for Folder target")
  | Some v =>
      folder_path ← py_path v;
      let created :=
        if path_exists env folder_path then None
        else makedirs env folder_path in
      match created with
      | Some e => Returned (Invalid ("Could not create folder path: " +:+ e))
      | None =>
          match write_test_file env folder_path with
          | Some e => Returned (Invalid ("Folder is not writable: " +:+ e))
          | None => Returned Valid
          end
      end
  end.

(** The [HEC] branch of [validate_source]. *)
Definition validate_hec_target (source_data : dict) : outcome validation :=
  match source_data !! "hec_url", source_data !! "hec_token",
        source_data !! "source_name" with
  | None, _, _ =>
      Returned (Invalid "HEC URL is required for HEC Connector target")
  | Some _, None, _ =>
      Returned (Invalid "HEC token is required for HEC Connector target")
  | Some _, Some _, None =>
      Returned (Invalid ("HEC connection test failed: " +:+ "'source_name'"))
  | Some url, Some token, Some source_name =>
      match requests_post env url token source_name with
      | Response status_code =>
          if negb (status_code =? 200) then
            Returned (Invalid
              ("HEC connection test failed with status code: "
                 +:+ pretty status_code))
          else Returned Valid
      | PostRaised e =>
          Returned (Invalid ("HEC connection test failed: " +:+ e))
      end
  end.

(** The choice between the two target kinds (the last part of
    [validate_source]). *)
Definition validate_target (source_data : dict) : outcome validation :=
  target_type ← getitem source_data "target_type";
  if py_eq_str target_type "Folder" then
    validate_folder_target source_data
  else if py_eq_str target_type "HEC" then
    validate_hec_target source_data
  else
    Returned (Invalid "Target type must be either Folder or HEC").

(** What [validate_source] does once the port is accepted: the protocol,
    then the target. *)
Definition validate_protocol_and_target (source_data : dict)
    : outcome validation :=
  if negb (get_eq_str source_data "protocol" "UDP"
           || get_eq_str source_data "protocol" "TCP") then
    Returned (Invalid "Protocol must be either UDP or TCP")
  else validate_target source_data.

Definition validate_source (source_data : dict) : outcome validation :=
  match first_missing required_fields source_data with
  | Some field => Returned (Invalid ("Missing required field: " +:+ field))
  | None =>
      listener_port ← getitem source_data "listener_port";
      (* [try: ... except ValueError]: any other exception goes on *)
      match py_int listener_port with
      | Raised ValueError =>
          Returned (Invalid "Listener port must be a valid number")
      | Raised e => Raised e
      | Returned port =>
          if (port <? 1) || (port >? 65535) then
            Returned (Invalid "Listener port must be between 1 and 65535")
          else validate_protocol_and_target source_data
      end
  end.

Definition get_sources (self : SourceManager) : gmap string dict :=
  sources self.

Definition get_source (self : SourceManager) (source_id : string)
    : option dict :=
  sources self !! source_id.

(** The defaults [add_source] writes into [source_data] before it
    validates. The dictionary is changed in place, so the result is both
    what the caller holds afterwards and what is validated and stored. *)
Definition set_defaults (source_data : dict) : dict :=
  let source_data :=
    if contains source_data "protocol" then source_data
    else <["protocol" := DEFAULT_UDP_PROTOCOL env]> source_data in
  if get_eq_str source_data "target_type" "HEC"
     && negb (contains source_data "batch_size") then
    <["batch_size" := DEFAULT_HEC_BATCH_SIZE env]> source_data
  else if get_eq_str source_data "target_type" "Folder"
          && negb (contains source_data "batch_size") then
    <["batch_size" := DEFAULT_FOLDER_BATCH_SIZE env]> source_data
  else source_data.

(** [add_source] gives its outcome and the registry after the call. *)
Definition add_source (self : SourceManager) (source_data : dict)
    : outcome result * SourceManager :=
  let source_id := uuid4 env in
  let source_data := set_defaults source_data in
  match validate_source source_data with
  | Raised e => (Raised e, self)
  | Returned (Invalid error) => (Returned (Failure error), self)
  | Returned Valid =>
      let self :=
        {| sources := <[source_id := source_data]> (sources self) |} in
      if save_sources env (sources self) then
        (Returned (SuccessId source_id), self)
      else
        (Returned (Failure "Failed to save source configuration"), self)
  end.

Definition update_source (self : SourceManager) (source_id : string)
    (updated_data : dict) : outcome result * SourceManager :=
  match sources self !! source_id with
  | None =>
      (Returned (Failure
         ("Source with ID " +:+ source_id +:+ " does not exist")), self)
  | Some existing =>
      (* [copy()] then [update(updated_data)]: the new values win *)
      let source_data := updated_data ∪ existing in
      match validate_source source_data with
      | Raised e => (Raised e, self)
      | Returned (Invalid error) => (Returned (Failure error), self)
      | Returned Valid =>
          let self :=
            {| sources := <[source_id := source_data]> (sources self) |} in
          if save_sources env (sources self) then (Returned Success, self)
          else
            (Returned (Failure "Failed to save source configuration"), self)
      end
  end.

Definition delete_source (self : SourceManager) (source_id : string)
    : outcome result * SourceManager :=
  match sources self !! source_id with
  | None =>
      (Returned (Failure
         ("Source with ID " +:+ source_id +:+ " does not exist")), self)
  | Some existing =>
      match getitem existing "source_name" with
      | Raised e => (Raised e, self)
      | Returned source_name =>
          let self := {| sources := delete source_id (sources self) |} in
          if save_sources env (sources self) then (Returned Success, self)
          else
            (Returned (Failure "Failed to save source configuration"), self)
      end
  end.

End source_manager.

(** The four required fields are present. *)
Definition has_required (source_data : dict) : Prop :=
  ∀ field, field ∈ required_fields → is_Some (source_data !! field).

(** What a source that passed [validate_source] looks like, as far as the
    dictionary itself shows it: the required fields, a port that [int]
    reads within 1..65535, one of the two protocols, and one of the two
    target types with its parameters. *)
Definition stored_ok (env : Env) (source_data : dict) : Prop :=
  has_required source_data ∧
  (∃ v port, source_data !! "listener_port" = Some v ∧
     py_int env v = Returned port ∧ 1 ≤ port ≤ 65535) ∧
  (source_data !! "protocol" = Some (VStr "UDP") ∨
   source_data !! "protocol" = Some (VStr "TCP")) ∧
  ((source_data !! "target_type" = Some (VStr "Folder") ∧
    ∃ path, source_data !! "folder_path" = Some (VStr path)) ∨
   (source_data !! "target_type" = Some (VStr "HEC") ∧
    is_Some (source_data !! "hec_url") ∧
    is_Some (source_data !! "hec_token"))).

(** Every source of the registry has that shape. *)
Definition registry_ok (env : Env) (self : SourceManager) : Prop :=
  ∀ id source, sources self !! id = Some source → stored_ok env source.

(** What an [updated_data] of the flow can hold at the keys that
    [validate_source] tests before the target. *)
Definition edit_keys_ok (env : Env) (self : SourceManager) (source_id : string)
    (updated_data : dict) : Prop :=
  updated_data !! "target_type" = None ∧
  (∀ v, updated_data !! "listener_port" = Some v →
     ∃ port, v = VInt port ∧ 1 ≤ port ≤ 65535) ∧
  (∀ v, updated_data !! "protocol" = Some v →
     v = VStr "TCP" ∨ v = VStr "UDP") ∧
  (∀ v, updated_data !! "source_ip" = Some v →
     ∃ ip, v = VStr ip ∧ valid_ipv4 env ip = true ∧
       ∀ id source, id ≠ source_id → get_source self id = Some source →
         source !! "source_ip" ≠ Some (VStr ip)).

(** ** The CLI: views and input loops of [log_collector/cli.py] *)

Module CLI.

(** [colorama]'s escape sequences, and the line feed of ["\n"]. *)
Definition ESC : string := String "027"%char "".
Definition NL : string := String "010"%char "".
Definition Fore_RED : string := ESC +:+ "[31m".
Definition Fore_CYAN : string := ESC +:+ "[36m".
Definition RESET_ALL : string := ESC +:+ "[0m".

(** [print(f"{Fore.RED}...{ColorStyle.RESET_ALL}")]. *)
Definition red (msg : string) : string := Fore_RED +:+ msg +:+ RESET_ALL.

(** Modelled from the spec: the class [HealthCheck] is not part of the
    sources at hand; the CLI reads its [config] (HEC URL, token, interval
    in seconds; absent until configured) and its [running] flag. *)
Record hc_config := {
  hec_url : string;
  hec_token : string;
  interval : Z
}.

Record HealthCheck := {
  config : option hc_config;
  running : bool
}.

(** The lines a run of [print] calls shows; a field that raises ends the
    run with what was printed before it. *)
Fixpoint print_all (items : list (outcome string))
    : list string * option pyexn :=
  match items with
  | [] => ([], None)
  | Returned line :: rest =>
      let '(out, e) := print_all rest in (line :: out, e)
  | Raised e :: _ => ([], Some e)
  end.

(** [print(f"{before}{d[k]}{after}")]. *)
Definition field (before : string) (d : dict) (k : string) (after : string)
    : outcome string :=
  v ← getitem d k; mret (before +:+ py_str v +:+ after).

Definition _print_header : list string :=
  [ Fore_CYAN +:+ "======================================";
    "         LOG COLLECTOR";
    "======================================";
    "Version: 1.0.0" +:+ RESET_ALL;
    "" ].

(** One pass of the loop of [_manage_source], up to its prompt. An absent
    source and an empty dictionary are both false for [if not source]. *)
Definition _manage_source (self : SourceManager) (source_id : string)
    : list string * option pyexn :=
  match get_source self source_id with
  | None => (_print_header ++ [red "Source not found."], None)
  | Some source =>
      if bool_decide (source = ∅) then
        (_print_header ++ [red "Source not found."], None)
      else
        let '(out, e) := print_all (
          [ field (Fore_CYAN +:+ "=== Manage Source: ") source "source_name"
                  (" ===" +:+ RESET_ALL);
            Returned (NL +:+ "Source ID: " +:+ source_id);
            field "Source Name: " source "source_name" "";
            field "Source IP: " source "source_ip" "";
            field "Listener Port: " source "listener_port" "";
            field "Protocol: " source "protocol" "";
            field "Target Type: " source "target_type" "" ]
          ++ (if get_eq_str source "target_type" "FOLDER" then
                [ field "Folder Path: " source "folder_path" "" ]
              else if get_eq_str source "target_type" "HEC" then
                [ field "HEC URL: " source "hec_url" "";
                  Returned ("HEC Token: " +:+ "**********") ]
              else [])
          ++ [ Returned ("Batch Size: " +:+
                 py_str (default (VStr "Default") (source !! "batch_size")));
               Returned (NL +:+ "Options:");
               Returned "1. Edit Source";
               Returned "2. Delete Source";
               Returned "3. Return to Sources List" ])
        in (_print_header ++ out, e)
  end.

(** [_configure_health_check] up to its prompt. *)
Definition _configure_health_check (health_check : HealthCheck)
    : list string :=
  _print_header ++
  [ Fore_CYAN +:+ "=== Health Check Configuration ===" +:+ RESET_ALL ] ++
  match config health_check with
  | Some config =>
      [ NL +:+ "Current Configuration:";
        "HEC URL: " +:+ hec_url config;
        "HEC Token: " +:+ "**********";
        "Interval: " +:+ pretty (interval config) +:+ " seconds";
        "Status: " +:+ (if running health_check then "Running" else "Stopped");
        NL +:+ "Options:";
        "1. Update Configuration";
        "2. Start/Stop Health Check";
        "3. Return to Main Menu" ]
  | None =>
      [ "Health check is not configured.";
        NL +:+ "Options:";
        "1. Configure Health Check";
        "2. Return to Main Menu" ]
  end.

(** [f"{label} {f'[{current}]' if current else ''}: "]. *)
Definition bracket_prompt (label current : string) : string :=
  label +:+ " " +:+
  (if String.eqb current "" then "" else "[" +:+ current +:+ "]") +:+ ": ".

(** [s.startswith(("http://", "https://"))]. *)
Definition is_http_url (s : string) : bool :=
  String.prefix "http://" s || String.prefix "https://" s.

(** The three input loops of [_update_health_check]. Each takes the
    answers the user still has to give and returns what it displays, and
    the value it read with the answers left; it has no value when the
    answers run out while the prompt waits. *)
Fixpoint hec_url_loop (current_url : string) (answers : list string)
    : list string * option (string * list string) :=
  let text := bracket_prompt "HEC URL" current_url in
  match answers with
  | [] => ([text], None)
  | answer :: rest =>
      let hec_url :=
        if String.eqb answer "" && negb (String.eqb current_url "")
        then current_url else answer in
      if negb (String.eqb hec_url "") && is_http_url hec_url then
        ([text], Some (hec_url, rest))
      else
        let '(out, r) := hec_url_loop current_url rest in
        (text ::
           red "Invalid URL. Please enter a valid URL starting with http:// or https://."
           :: out, r)
  end.

Fixpoint hec_token_loop (current_token : string) (answers : list string)
    : list string * option (string * list string) :=
  let text := bracket_prompt "HEC Token" current_token in
  match answers with
  | [] => ([text], None)
  | answer :: rest =>
      let hec_token :=
        if String.eqb answer "" && negb (String.eqb current_token "")
        then current_token else answer in
      if negb (String.eqb hec_token "") then
        ([text], Some (hec_token, rest))
      else
        let '(out, r) := hec_token_loop current_token rest in
        (text ::
           red "HEC token cannot be empty."
           :: out, r)
  end.

Section with_env.
Context (env : Env).

Fixpoint interval_loop (current_interval : pyval) (answers : list string)
    : list string * option (pyval * list string) :=
  let text :=
    "Check Interval in seconds [" +:+ py_str current_interval +:+ "]: " in
  match answers with
  | [] => ([text], None)
  | interval_str :: rest =>
      if String.eqb interval_str "" then
        ([text], Some (current_interval, rest))
      else
        match int_of_str env interval_str with
        | Some interval =>
            if interval >? 0 then ([text], Some (VInt interval, rest))
            else
              let '(out, r) := interval_loop current_interval rest in
              (text ::
                 red "Interval must be greater than 0."
                 :: out, r)
        | None =>
            let '(out, r) := interval_loop current_interval rest in
            (text ::
               red "Invalid interval. Please enter a valid number."
               :: out, r)
        end
  end.

(** [_update_health_check] from its header to the call of [configure]:
    what it displays, and the arguments it has read for [configure] when
    the answers suffice. *)
Definition _update_health_check (health_check : HealthCheck)
    (answers : list string)
    : list string * option (string * string * pyval) :=
  let current_url := from_option hec_url "" (config health_check) in
  let current_token := from_option hec_token "" (config health_check) in
  let current_interval :=
    from_option (λ c, VInt (interval c))
      (DEFAULT_HEALTH_CHECK_INTERVAL env) (config health_check) in
  let title :=
    _print_header ++
    [ Fore_CYAN +:+ "=== Configure Health Check ===" +:+ RESET_ALL ] in
  match hec_url_loop current_url answers with
  | (out1, None) => (title ++ out1, None)
  | (out1, Some (url, answers)) =>
      match hec_token_loop current_token answers with
      | (out2, None) => (title ++ out1 ++ out2, None)
      | (out2, Some (token, answers)) =>
          match interval_loop current_interval answers with
          | (out3, None) => (title ++ out1 ++ out2 ++ out3, None)
          | (out3, Some (seconds, _)) =>
              (title ++ out1 ++ out2 ++ out3 ++
               [ NL +:+ Fore_CYAN +:+ "Testing health check connection..."
                    +:+ RESET_ALL ],
               Some (url, token, seconds))
          end
      end
  end.

(** [[src["source_ip"] for ... in sources]]. *)
Fixpoint source_ips (srcs : list (string * dict)) : outcome (list pyval) :=
  match srcs with
  | [] => Returned []
  | (_, src) :: rest =>
      ip ← getitem src "source_ip";
      ips ← source_ips rest;
      mret (ip :: ips)
  end.

(** [ip in existing_ips]. *)
Definition ip_in (ip : string) (existing_ips : list pyval) : bool :=
  existsb (λ v, py_eq_str v ip) existing_ips.

(** The source-IP loop of [_add_source]; [valid_ipv4] stands for the match
    of [ip_pattern] together with the test of the four octets. *)
Fixpoint add_source_ip_loop (existing_ips : list pyval)
    (answers : list string) : list string * option (string * list string) :=
  match answers with
  | [] => (["Source IP: "], None)
  | source_ip :: rest =>
      if ip_in source_ip existing_ips then
        let '(out, r) := add_source_ip_loop existing_ips rest in
        ("Source IP: " ::
           red "This IP is already used by another source. Please enter a different IP."
           :: out, r)
      else if valid_ipv4 env source_ip then
        (["Source IP: "], Some (source_ip, rest))
      else
        let '(out, r) := add_source_ip_loop existing_ips rest in
        ("Source IP: " ::
           red "Invalid IP address. Please enter a valid IPv4 address."
           :: out, r)
  end.

(** The source-IP loop of [_edit_source]: an empty answer keeps the
    current address, so nothing is put into [updated_data]. *)
Fixpoint edit_source_ip_loop (current_ip : string)
    (existing_ips : list pyval) (answers : list string)
    : list string * option (option string * list string) :=
  let text := "Source IP [" +:+ current_ip +:+ "]: " in
  match answers with
  | [] => ([text], None)
  | new_ip :: rest =>
      if String.eqb new_ip "" then ([text], Some (None, rest))
      else if ip_in new_ip existing_ips then
        let '(out, r) := edit_source_ip_loop current_ip existing_ips rest in
        (text ::
           red "This IP is already used by another source. Please enter a different IP."
           :: out, r)
      else if valid_ipv4 env new_ip then
        ([text], Some (Some new_ip, rest))
      else
        let '(out, r) := edit_source_ip_loop current_ip existing_ips rest in
        (text ::
           red "Invalid IP address. Please enter a valid IPv4 address."
           :: out, r)
  end.

(** The addresses the two loops compare with: all sources for an
    addition, all but the edited one for an edit. *)
Definition add_existing_ips (self : SourceManager) : outcome (list pyval) :=
  source_ips (map_to_list (get_sources self)).

Definition edit_existing_ips (self : SourceManager) (source_id : string)
    : outcome (list pyval) :=
  source_ips
    (filter (λ p, p.1 ≠ source_id) (map_to_list (get_sources self))).

(** The port loop of [_add_source]: an empty answer takes 514. *)
Fixpoint add_source_port_loop (answers : list string)
    : list string * option (Z * list string) :=
  let text := "Listener Port [514]: " in
  match answers with
  | [] => ([text], None)
  | answer :: rest =>
      if String.eqb answer "" then ([text], Some (514, rest))
      else
        match int_of_str env answer with
        | Some port =>
            if (1 <=? port) && (port <=? 65535) then
              ([text], Some (port, rest))
            else
              let '(out, r) := add_source_port_loop rest in
              (text :: red "Port must be between 1 and 65535." :: out, r)
        | None =>
            let '(out, r) := add_source_port_loop rest in
            (text :: red "Invalid port. Please enter a valid number."
               :: out, r)
        end
  end.

(** The port loop of [_edit_source]: an empty answer keeps the current
    port, so nothing is put into [updated_data]. *)
Fixpoint edit_source_port_loop (current_port : pyval)
    (answers : list string)
    : list string * option (option Z * list string) :=
  let text := "Listener Port [" +:+ py_str current_port +:+ "]: " in
  match answers with
  | [] => ([text], None)
  | new_port :: rest =>
      if String.eqb new_port "" then ([text], Some (None, rest))
      else
        match int_of_str env new_port with
        | Some port =>
            if (1 <=? port) && (port <=? 65535) then
              ([text], Some (Some port, rest))
            else
              let '(out, r) := edit_source_port_loop current_port rest in
              (text :: red "Port must be between 1 and 65535." :: out, r)
        | None =>
            let '(out, r) := edit_source_port_loop current_port rest in
            (text :: red "Invalid port. Please enter a valid number."
               :: out, r)
        end
  end.

(** [answer.lower() == 'y']: the letter in either case. *)
Definition is_yes (answer : string) : bool :=
  String.eqb answer "y" || String.eqb answer "Y".

(** What [_delete_source] does to the registry, with the exception that
    ends it if one is raised: nothing without a source or while the
    question waits, nothing unless the answer is yes, and then the
    deletion of [delete_source]. *)
Definition _delete_source (self : SourceManager) (source_id : string)
    (answers : list string) : option pyexn * SourceManager :=
  match get_source self source_id with
  | None => (None, self)
  | Some source =>
      if bool_decide (source = ∅) then (None, self)
      else
        match getitem source "source_name" with
        | Raised e => (Some e, self)
        | Returned _ =>
            match answers with
            | [] => (None, self)
            | confirm :: _ =>
                if negb (is_yes confirm) then (None, self)
                else
                  match delete_source env self source_id with
                  | (Returned _, self') => (None, self')
                  | (Raised e, self') => (Some e, self')
                  end
            end
        end
  end.

Definition Fore_YELLOW : string := ESC +:+ "[33m".

(** [d.get(k, fallback)], printed. *)
Definition get_or (d : dict) (k fallback : string) : string :=
  py_str (default (VStr fallback) (d !! k)).

(** The lines of [_view_status] under "Source Details" for one source. *)
Definition status_source_details (source : dict)
    : list string * option pyexn :=
  print_all (
    [ field (NL +:+ Fore_YELLOW) source "source_name" RESET_ALL;
      field "  IP: " source "source_ip" "";
      (port ← getitem source "listener_port";
       protocol ← getitem source "protocol";
       mret ("  Port: " +:+ py_str port +:+ " (" +:+ py_str protocol
               +:+ ")"));
      field "  Target: " source "target_type" "" ]
    ++ (if get_eq_str source "target_type" "FOLDER" then
          [ Returned ("  Folder Path: "
                        +:+ get_or source "folder_path" "Not specified") ]
        else if get_eq_str source "target_type" "HEC" then
          [ Returned ("  HEC URL: "
                        +:+ get_or source "hec_url" "Not specified") ]
        else [])
    ++ [ Returned ("  Batch Size: "
                     +:+ get_or source "batch_size" "Default") ]).

(** The name cell of a row of the status table, for a name that is a
    text, taken as the sequence of its characters, so that [length] is
    [len] and [take] is a slice: a name of more than 25 characters is cut
    to its first 23 and two dots. [ljust] is [f"{s:<width}"]: spaces are
    added on the right up to the width, and a longer text is left as it
    is. *)
Section name_cell.
Context {char : Type} (dot space : char).

Definition status_source_name (name : list char) : list char :=
  if (25 <? length name)%nat then take 23 name ++ [dot; dot] else name.

Definition ljust (width : nat) (s : list char) : list char :=
  s ++ replicate (width - length s) space.

End name_cell.

End with_env.

(** *** The add-source flow

    Two more functions of the Python library take part in it:
    [str.isdigit], and the text [str(Path(s))] of the path a string
    denotes. *)
Record PyLib := {
  isdigit : string → bool;
  path_str : string → string
}.

Section add_source_flow.
Context (env : Env) (lib : PyLib).

(** [answer.lower() == letter], for a letter given in both cases. *)
Definition is_letter (lower upper answer : string) : bool :=
  String.eqb answer lower || String.eqb answer upper.

(** The batch size read from an answer: the number when the answer is not
    empty, is made of digits and is above zero, the default otherwise.
    [int] is applied only after [isdigit], and its [ValueError] is not
    caught. *)
Definition read_batch_size (default_size : pyval) (batch_size : string)
    : outcome pyval :=
  if negb (String.eqb batch_size "") && isdigit lib batch_size then
    match int_of_str env batch_size with
    | Some n => Returned (if n >? 0 then VInt n else default_size)
    | None => Raised ValueError
    end
  else Returned default_size.

(** The loops of [_add_source] that the registry does not share with
    other flows, as what they read: the answer they accept and the
    answers left, or nothing when the answers run out. What they display
    is left out. *)
Fixpoint target_type_loop (answers : list string)
    : option (string * list string) :=
  match answers with
  | [] => None
  | target_type :: rest =>
      if is_letter "f" "F" target_type then Some ("FOLDER", rest)
      else if is_letter "h" "H" target_type then Some ("HEC", rest)
      else target_type_loop rest
  end.

Fixpoint folder_path_loop (answers : list string)
    : option (string * list string) :=
  match answers with
  | [] => None
  | folder_path :: rest =>
      let created :=
        if path_exists env folder_path then None
        else makedirs env folder_path in
      match created with
      | Some _ => folder_path_loop rest
      | None =>
          match write_test_file env folder_path with
          | Some _ => folder_path_loop rest
          | None => Some (path_str lib folder_path, rest)
          end
      end
  end.

Fixpoint add_hec_url_loop (answers : list string)
    : option (string * list string) :=
  match answers with
  | [] => None
  | hec_url :: rest =>
      if is_http_url hec_url then Some (hec_url, rest)
      else add_hec_url_loop rest
  end.

(** The dictionary [_add_source] builds from the answers and hands to
    [add_source]; there is none when the flow returns before (empty name,
    empty token) or the answers run out. *)
Definition add_source_data (self : SourceManager) (answers : list string)
    : outcome (option dict) :=
  match answers with
  | [] => Returned None
  | source_name :: answers =>
    if String.eqb source_name "" then Returned None
    else
      existing_ips ← add_existing_ips self;
      match (add_source_ip_loop env existing_ips answers).2 with
      | None => Returned None
      | Some (source_ip, answers) =>
      match (add_source_port_loop env answers).2 with
      | None => Returned None
      | Some (port, answers) =>
      match answers with
      | [] => Returned None
      | protocol :: answers =>
      let protocol :=
        if is_letter "t" "T" protocol then "TCP" else "UDP" in
      match target_type_loop answers with
      | None => Returned None
      | Some (target_type, answers) =>
      let source_data : dict :=
        <["target_type" := VStr target_type]>
          (<["protocol" := VStr protocol]>
             (<["listener_port" := VInt port]>
                (<["source_ip" := VStr source_ip]>
                   {["source_name" := VStr source_name]}))) in
      if String.eqb target_type "FOLDER" then
        match folder_path_loop answers with
        | None => Returned None
        | Some (folder_path, answers) =>
            match answers with
            | [] => Returned None
            | batch_size :: _ =>
                batch_size ←
                  read_batch_size (DEFAULT_FOLDER_BATCH_SIZE env) batch_size;
                Returned (Some
                  (<["batch_size" := batch_size]>
                     (<["folder_path" := VStr folder_path]> source_data)))
            end
        end
      else if String.eqb target_type "HEC" then
        match add_hec_url_loop answers with
        | None => Returned None
        | Some (hec_url, answers) =>
            match answers with
            | [] => Returned None
            | hec_token :: answers =>
                if String.eqb hec_token "" then Returned None
                else
                  match answers with
                  | [] => Returned None
                  | batch_size :: _ =>
                      batch_size ←
                        read_batch_size (DEFAULT_HEC_BATCH_SIZE env)
                          batch_size;
                      Returned (Some
                        (<["batch_size" := batch_size]>
                           (<["hec_token" := VStr hec_token]>
                              (<["hec_url" := VStr hec_url]> source_data))))
                  end
            end
        end
      else Returned (Some source_data)
      end end end end
  end.

(** What [_add_source] does to the registry, with the exception that ends
    it if one is raised. *)
Definition _add_source (self : SourceManager) (answers : list string)
    : option pyexn * SourceManager :=
  match add_source_data self answers with
  | Raised e => (Some e, self)
  | Returned None => (None, self)
  | Returned (Some source_data) =>
      match add_source env self source_data with
      | (Returned _, self') => (None, self')
      | (Raised e, self') => (Some e, self')
      end
  end.

(** *** The edit-source flow *)

(** [if value: updated_data[k] = value], for a value that may be absent. *)
Definition set_if (k : string) (value : option pyval) (d : dict) : dict :=
  match value with
  | Some v => <[k := v]> d
  | None => d
  end.

(** A text answer that is kept only when it is not empty. *)
Definition nonempty (answer : string) : option pyval :=
  if String.eqb answer "" then None else Some (VStr answer).

(** The protocol of an edit: [t] or [u] in either case, nothing for any
    other answer. *)
Definition edit_protocol (new_protocol : string) : option pyval :=
  if is_letter "t" "T" new_protocol then Some (VStr "TCP")
  else if is_letter "u" "U" new_protocol then Some (VStr "UDP")
  else None.

(** The batch size of an edit: set only for digits above zero. *)
Definition edit_batch_size (new_batch : string) : outcome (option pyval) :=
  if negb (String.eqb new_batch "") && isdigit lib new_batch then
    match int_of_str env new_batch with
    | Some n => Returned (if n >? 0 then Some (VInt n) else None)
    | None => Raised ValueError
    end
  else Returned None.

(** The folder path of an edit: nothing for an empty answer; a path that
    cannot be created or written ends the edit, which is the [None]
    outside. *)
Definition edit_folder_path (new_path : string) : option (option pyval) :=
  if String.eqb new_path "" then Some None
  else
    let created :=
      if path_exists env new_path then None else makedirs env new_path in
    match created with
    | Some _ => None
    | None =>
        match write_test_file env new_path with
        | Some _ => None
        | None => Some (Some (VStr (path_str lib new_path)))
        end
    end.

(** The URL loop of an edit: an empty answer keeps the current URL. *)
Fixpoint edit_hec_url_loop (answers : list string)
    : option (option pyval * list string) :=
  match answers with
  | [] => None
  | new_url :: rest =>
      if String.eqb new_url "" then Some (None, rest)
      else if is_http_url new_url then Some (Some (VStr new_url), rest)
      else edit_hec_url_loop rest
  end.

(** The dictionary [updated_data] that [_edit_source] builds from the
    answers; there is none when the source is absent, when a folder path
    fails, or when the answers run out. *)
Definition edit_source_data (self : SourceManager) (source_id : string)
    (answers : list string) : outcome (option dict) :=
  match get_source self source_id with
  | None => Returned None
  | Some source =>
    if bool_decide (source = ∅) then Returned None
    else
      _ ← getitem source "source_name";
      match answers with
      | [] => Returned None
      | new_name :: answers =>
      let updated_data := set_if "source_name" (nonempty new_name) ∅ in
      current_ip ← getitem source "source_ip";
      existing_ips ← edit_existing_ips self source_id;
      match (edit_source_ip_loop env (py_str current_ip) existing_ips
               answers).2 with
      | None => Returned None
      | Some (new_ip, answers) =>
      let updated_data :=
        set_if "source_ip" (VStr <$> new_ip) updated_data in
      current_port ← getitem source "listener_port";
      match (edit_source_port_loop env current_port answers).2 with
      | None => Returned None
      | Some (new_port, answers) =>
      let updated_data :=
        set_if "listener_port" (VInt <$> new_port) updated_data in
      _ ← getitem source "protocol";
      match answers with
      | [] => Returned None
      | new_protocol :: answers =>
      let updated_data :=
        set_if "protocol" (edit_protocol new_protocol) updated_data in
      target_type ← getitem source "target_type";
      if py_eq_str target_type "FOLDER" then
        _ ← getitem source "folder_path";
        match answers with
        | [] => Returned None
        | new_path :: answers =>
            match edit_folder_path new_path with
            | None => Returned None
            | Some folder_path =>
                let updated_data :=
                  set_if "folder_path" folder_path updated_data in
                match answers with
                | [] => Returned None
                | new_batch :: _ =>
                    batch_size ← edit_batch_size new_batch;
                    Returned (Some
                      (set_if "batch_size" batch_size updated_data))
                end
            end
        end
      else if py_eq_str target_type "HEC" then
        _ ← getitem source "hec_url";
        match edit_hec_url_loop answers with
        | None => Returned None
        | Some (hec_url, answers) =>
            let updated_data := set_if "hec_url" hec_url updated_data in
            match answers with
            | [] => Returned None
            | new_token :: answers =>
                let updated_data :=
                  set_if "hec_token" (nonempty new_token) updated_data in
                match answers with
                | [] => Returned None
                | new_batch :: _ =>
                    batch_size ← edit_batch_size new_batch;
                    Returned (Some
                      (set_if "batch_size" batch_size updated_data))
                end
            end
        end
      else Returned (Some updated_data)
      end end end end
  end.

(** What [_edit_source] does to the registry, with the exception that
    ends it if one is raised: [update_source] is called only for an
    [updated_data] that is not empty. *)
Definition _edit_source (self : SourceManager) (source_id : string)
    (answers : list string) : option pyexn * SourceManager :=
  match edit_source_data self source_id answers with
  | Raised e => (Some e, self)
  | Returned None => (None, self)
  | Returned (Some updated_data) =>
      if bool_decide (updated_data = ∅) then (None, self)
      else
        match update_source env self source_id updated_data with
        | (Returned _, self') => (None, self')
        | (Raised e, self') => (Some e, self')
        end
  end.

End add_source_flow.

End CLI.

(** ** A sample environment

    Defaults as a syslog relay would have them, an [int] that reads plain
    decimal numerals, a host on which every folder can be created and
    written except those under ["/proc"], an endpoint whose status is
    given, and a store that saves or fails as said. *)

Definition digit_of_ascii (c : ascii) : option Z :=
  let n := Z.of_nat (nat_of_ascii c) in
  if (48 <=? n) && (n <=? 57) then Some (n - 48) else None.

Fixpoint digits_value (acc : Z) (s : string) : option Z :=
  match s with
  | EmptyString => Some acc
  | String c rest =>
      match digit_of_ascii c with
      | Some d => digits_value (10 * acc + d) rest
      | None => None
      end
  end.

Definition decimal_of_str (s : string) : option Z :=
  match s with
  | EmptyString => None
  | String "-" rest =>
      if String.eqb rest "" then None else Z.opp <$> digits_value 0 rest
  | _ => digits_value 0 s
  end.

Fixpoint split_on (sep : ascii) (s : string) : list string :=
  match s with
  | EmptyString => [EmptyString]
  | String c rest =>
      match split_on sep rest with
      | [] => []
      | part :: parts =>
          if Ascii.eqb c sep then EmptyString :: part :: parts
          else String c part :: parts
      end
  end.

Definition octet_ok (part : string) : bool :=
  (1 <=? String.length part)%nat && (String.length part <=? 3)%nat &&
  match digits_value 0 part with
  | Some n => n <=? 255
  | None => false
  end.

Definition dotted_quad (s : string) : bool :=
  match split_on "." s with
  | [a; b; c; d] => octet_ok a && octet_ok b && octet_ok c && octet_ok d
  | _ => false
  end.

Definition sample_env (status : post_result) (saves : bool) : Env := {|
  DEFAULT_UDP_PROTOCOL := VStr "UDP";
  DEFAULT_HEC_BATCH_SIZE := VInt 500;
  DEFAULT_FOLDER_BATCH_SIZE := VInt 5000;
  DEFAULT_HEALTH_CHECK_INTERVAL := VInt 60;
  int_of_str := decimal_of_str;
  path_exists := λ _, false;
  makedirs := λ p,
    if String.prefix "/proc" p then Some "Permission denied" else None;
  write_test_file := λ _, None;
  requests_post := λ _ _ _, status;
  save_sources := λ _, saves;
  uuid4 := "3f2b8c1e-0d4a-4b6f-9a57-6c1d2e3f4a5b";
  valid_ipv4 := dotted_quad
|}.

(** ** Sample sources *)

(** What the add-source flow of the CLI builds for a folder target. *)
Definition cli_folder_source : dict :=
  {[ "source_name" := VStr "firewall";
     "source_ip" := VStr "10.0.0.7";
     "listener_port" := VInt 514;
     "protocol" := VStr "UDP";
     "target_type" := VStr "FOLDER";
     "folder_path" := VStr "/var/log/collector";
     "batch_size" := VInt 5000 ]}.

(** The same source with the spelling [validate_source] tests for. *)
Definition folder_source : dict :=
  <["target_type" := VStr "Folder"]> cli_folder_source.

Definition hec_source : dict :=
  {[ "source_name" := VStr "proxy";
     "source_ip" := VStr "10.0.0.8";
     "listener_port" := VInt 6514;
     "protocol" := VStr "TCP";
     "target_type" := VStr "HEC";
     "hec_url" := VStr "https://siem.example:8088/services/collector";
     "hec_token" := VStr "s3cr3t-A";
     "batch_size" := VInt 500 ]}.

(** Two sources that each share something with the stored [hec_source]:
    its address on another port, and its protocol and port at another
    address. *)
Definition same_ip_source : dict :=
  <["source_name" := VStr "proxy-b"]>
    (<["listener_port" := VInt 6515]> hec_source).

Definition same_binding_source : dict :=
  <["source_name" := VStr "proxy-c"]>
    (<["source_ip" := VStr "10.0.0.9"]> hec_source).

(** A folder source whose port is [None]. *)
Definition none_port_folder_source : dict :=
  <["listener_port" := VNone]> folder_source.

(** A source whose port is [None], and a folder source whose path is a
    number. *)
Definition none_port_source : dict :=
  <["listener_port" := VNone]> hec_source.

Definition number_path_source : dict :=
  <["folder_path" := VInt 5]> folder_source.

(** A registry with two sources, and a configured health check with a
    given token. *)
Definition two_sources : SourceManager :=
  {| sources := {[ "a1" := hec_source; "b2" := folder_source ]} |}.

Definition health_check_with (token : string) : CLI.HealthCheck :=
  {| CLI.config :=
       Some {| CLI.hec_url := "https://siem.example:8088/services/collector";
               CLI.hec_token := token;
               CLI.interval := 60 |};
     CLI.running := true |}.

(** A Python library whose [isdigit] knows the ASCII digits and whose
    paths print as they were written, the answers of a user who adds an
    HEC source, and the dictionary the flow builds from them. *)
Definition sample_lib : CLI.PyLib := {|
  CLI.isdigit := λ s,
    negb (String.eqb s "") &&
    match digits_value 0 s with Some _ => true | None => false end;
  CLI.path_str := λ s, s
|}.

Definition cli_hec_answers : list string :=
  [ "edge"; "10.0.0.8"; "10.0.0.9"; "70000"; ""; "t"; "x"; "h";
    "siem.example"; "https://siem.example:8088/services/collector";
    "s3cr3t-C"; "250" ].

Definition cli_hec_data : dict :=
  {[ "source_name" := VStr "edge";
     "source_ip" := VStr "10.0.0.9";
     "listener_port" := VInt 514;
     "protocol" := VStr "TCP";
     "target_type" := VStr "HEC";
     "hec_url" := VStr "https://siem.example:8088/services/collector";
     "hec_token" := VStr "s3cr3t-C";
     "batch_size" := VInt 250 ]}.

(** The answers of a user who edits the HEC source of [two_sources], and
    the [updated_data] the flow builds from them. *)
Definition cli_edit_answers : list string :=
  [ ""; "10.0.0.7"; "10.0.0.12"; "6515"; "u"; ""; ""; "many" ].

Definition cli_edit_data : dict :=
  {[ "source_ip" := VStr "10.0.0.12";
     "listener_port" := VInt 6515;
     "protocol" := VStr "UDP" ]}.

(** * Properties *)

Section registry_facts.
Context (env : Env).

(** Presence of the required fields, as the loop of [validate_source]
    sees it. *)
Lemma first_missing_None (fields : list string) (source_data : dict) :
  first_missing fields source_data = None ↔
  ∀ field, field ∈ fields → is_Some (source_data !! field).
Proof.
  induction fields as [|f fields IH]; simpl.
  - split; [intros _ field Hin; inversion Hin | done].
  - unfold contains. destruct (source_data !! f) as [v|] eqn:Hf.
    + rewrite IH. split.
      * intros H field Hin. apply elem_of_cons in Hin as [->|Hin]; eauto.
      * intros H field Hin. apply H. by right.
    + split; [done|]. intros H.
      destruct (H f) as [v Hv]; [by left|congruence].
Qed.

Lemma has_required_by_loop (source_data : dict) :
  first_missing required_fields source_data = None →
  has_required source_data.
Proof. exact (proj1 (first_missing_None _ _)). Qed.

Lemma first_missing_Some (fields : list string) (source_data : dict)
    (field : string) :
  first_missing fields source_data = Some field →
  field ∈ fields ∧ source_data !! field = None.
Proof.
  induction fields as [|f fields IH]; simpl; [done|].
  unfold contains. destruct (source_data !! f) eqn:Hf.
  - intros H. destruct (IH H). split; [by right|done].
  - intros [= <-]. split; [by left|done].
Qed.

(** [add_source] when validation passes: the source is stored under the
    fresh identifier, and the answer is that of [save_sources]. *)
Lemma add_source_valid (self : SourceManager) (source_data : dict) :
  validate_source env (set_defaults env source_data) = Returned Valid →
  add_source env self source_data =
    let self' :=
      {| sources :=
           <[uuid4 env := set_defaults env source_data]> (sources self) |} in
    (if save_sources env (sources self')
     then Returned (SuccessId (uuid4 env))
     else Returned (Failure "Failed to save source configuration"),
     self').
Proof.
  intros Hvalid. unfold add_source. rewrite Hvalid. simpl.
  by destruct (save_sources env _).
Qed.

(** [validate_source] never looks at the registry, so an invalid source is
    refused whatever the registry holds, and the registry is kept. *)
Lemma add_source_invalid (self : SourceManager) (source_data : dict)
    (error : string) :
  validate_source env (set_defaults env source_data)
    = Returned (Invalid error) →
  add_source env self source_data = (Returned (Failure error), self).
Proof. intros Hinvalid. unfold add_source. by rewrite Hinvalid. Qed.

(** *** The stages of [validate_source] *)

Lemma port_refused_iff (port : Z) :
  (port <? 1) || (port >? 65535) = true ↔ port < 1 ∨ 65535 < port.
Proof. rewrite orb_true_iff, Z.ltb_lt, Z.gtb_ltb, Z.ltb_lt. tauto. Qed.

Lemma port_accepted_iff (port : Z) :
  (port <? 1) || (port >? 65535) = false ↔ 1 ≤ port ≤ 65535.
Proof. rewrite orb_false_iff, Z.ltb_ge, Z.gtb_ltb, Z.ltb_ge. tauto. Qed.

Lemma validate_source_missing (source_data : dict) (field : string) :
  first_missing required_fields source_data = Some field →
  validate_source env source_data
    = Returned (Invalid ("Missing required field: " +:+ field)).
Proof. intros Hmiss. unfold validate_source. by rewrite Hmiss. Qed.

(** With the required fields there, the answer is decided by [int] of the
    port, as in the [try] block. *)
Lemma validate_source_port (source_data : dict) (v : pyval) :
  has_required source_data →
  source_data !! "listener_port" = Some v →
  validate_source env source_data =
    match py_int env v with
    | Raised ValueError =>
        Returned (Invalid "Listener port must be a valid number")
    | Raised e => Raised e
    | Returned port =>
        if (port <? 1) || (port >? 65535) then
          Returned (Invalid "Listener port must be between 1 and 65535")
        else validate_protocol_and_target env source_data
    end.
Proof.
  intros Hreq Hport. unfold validate_source.
  apply first_missing_None in Hreq. rewrite Hreq.
  unfold getitem. by rewrite Hport.
Qed.

(** A source whose port and protocol are accepted is judged on its target
    alone. *)
Lemma validate_source_target (source_data : dict) (v : pyval) (port : Z) :
  has_required source_data →
  source_data !! "listener_port" = Some v →
  py_int env v = Returned port →
  1 ≤ port ≤ 65535 →
  get_eq_str source_data "protocol" "UDP"
    || get_eq_str source_data "protocol" "TCP" = true →
  validate_source env source_data = validate_target env source_data.
Proof.
  intros Hreq Hv Hint Hrange Hproto.
  rewrite (validate_source_port _ _ Hreq Hv), Hint.
  apply port_accepted_iff in Hrange. rewrite Hrange.
  unfold validate_protocol_and_target. by rewrite Hproto.
Qed.

(** The port check where [int] answers or raises [ValueError]. For a
    source with a [listener_port]: when [int] of it raises [ValueError],
    or gives an integer below 1 or above 65535, the source is refused, and
    with the required fields present the error is the one of the port;
    when [int] gives an integer from 1 to 65535 and the required fields
    are present, the answer is that of the checks that follow the port.
    A port for which [int] raises another exception is not covered: see
    [validate_source_none_port]. *)
Theorem validate_source_port_range (source_data : dict) (v : pyval) :
  source_data !! "listener_port" = Some v →
  (py_int env v = Raised ValueError →
     ∃ error, validate_source env source_data = Returned (Invalid error) ∧
       (has_required source_data →
          error = "Listener port must be a valid number")) ∧
  (∀ port, py_int env v = Returned port → port < 1 ∨ 65535 < port →
     ∃ error, validate_source env source_data = Returned (Invalid error) ∧
       (has_required source_data →
          error = "Listener port must be between 1 and 65535")) ∧
  (∀ port, py_int env v = Returned port → 1 ≤ port ≤ 65535 →
     has_required source_data →
     validate_source env source_data
       = validate_protocol_and_target env source_data).
Proof.
  intros Hv.
  destruct (first_missing required_fields source_data) as [field|] eqn:Hmiss.
  - (* a required field is absent: refused before the port is read *)
    assert (¬ has_required source_data) as Hnot.
    { intros Hreq. apply first_missing_None in Hreq. congruence. }
    repeat split.
    + intros _. eexists. split;
        [by apply validate_source_missing | by intros ?].
    + intros port _ _. eexists. split;
        [by apply validate_source_missing | by intros ?].
    + by intros port _ _ ?.
  - assert (has_required source_data) as Hreq
      by exact (proj1 (first_missing_None _ _) Hmiss).
    rewrite (validate_source_port _ _ Hreq Hv). repeat split.
    + intros ->. by eexists.
    + intros port -> Hout. apply port_refused_iff in Hout. rewrite Hout.
      by eexists.
    + intros port -> Hin _. apply port_accepted_iff in Hin. by rewrite Hin.
Qed.

(** C2, as the code has it: the HEC connection test succeeds exactly when
    the POST answers with status 200. For a source with the required
    fields, an accepted port and protocol, target type ["HEC"], a
    [hec_url] and a [hec_token]: validation passes if and only if the
    response has status 200; every other status, 2xx or not, is refused
    with the error that names the status, and an exception of the request
    is refused with the error that carries its text. *)
Theorem hec_connection_test_only_200 (source_data : dict)
    (v url token source_name : pyval) (port : Z) :
  has_required source_data →
  source_data !! "listener_port" = Some v →
  py_int env v = Returned port →
  1 ≤ port ≤ 65535 →
  get_eq_str source_data "protocol" "UDP"
    || get_eq_str source_data "protocol" "TCP" = true →
  source_data !! "target_type" = Some (VStr "HEC") →
  source_data !! "hec_url" = Some url →
  source_data !! "hec_token" = Some token →
  source_data !! "source_name" = Some source_name →
  (validate_source env source_data = Returned Valid ↔
     requests_post env url token source_name = Response 200) ∧
  (∀ status, requests_post env url token source_name = Response status →
     status ≠ 200 →
     validate_source env source_data =
       Returned (Invalid ("HEC connection test failed with status code: "
                            +:+ pretty status))) ∧
  (∀ msg, requests_post env url token source_name = PostRaised msg →
     validate_source env source_data =
       Returned (Invalid ("HEC connection test failed: " +:+ msg))).
Proof.
  intros Hreq Hv Hint Hrange Hproto Htarget Hurl Htoken Hname.
  rewrite (validate_source_target _ _ _ Hreq Hv Hint Hrange Hproto).
  unfold validate_target, getitem, validate_hec_target.
  rewrite Htarget, Hurl, Htoken, Hname. simpl.
  destruct (requests_post env url token source_name) as [status|msg].
  - destruct (status =? 200) eqn:Hstatus; simpl.
    + apply Z.eqb_eq in Hstatus as ->. repeat split; try done.
      intros status [= <-] Hne. done.
    + apply Z.eqb_neq in Hstatus. repeat split; try done.
      * intros [= ->]. done.
      * intros status' [= <-] _. done.
  - repeat split; try done. by intros msg' [= <-].
Qed.

(** *** The address loops of the CLI *)

Lemma ip_in_elem (ip : string) (existing_ips : list pyval) :
  VStr ip ∈ existing_ips → CLI.ip_in ip existing_ips = true.
Proof.
  intros Hin. unfold CLI.ip_in. apply existsb_exists.
  exists (VStr ip). split; [by apply list_elem_of_In|].
  simpl. apply String.eqb_refl.
Qed.

Lemma source_ips_elem (srcs : list (string * dict)) (ips : list pyval) :
  CLI.source_ips srcs = Returned ips →
  ∀ id source v, (id, source) ∈ srcs → source !! "source_ip" = Some v →
    v ∈ ips.
Proof.
  revert ips. induction srcs as [|[id0 src0] srcs IH]; intros ips Hips.
  - intros id source v Hin. inversion Hin.
  - simpl in Hips. unfold getitem in Hips.
    destruct (src0 !! "source_ip") as [ip0|] eqn:Hip0; [|done].
    simpl in Hips.
    destruct (CLI.source_ips srcs) as [ips0|] eqn:Hrest; [|done].
    simpl in Hips. injection Hips as <-.
    intros id source v Hin Hv. apply elem_of_cons in Hin as [Heq|Hin].
    + injection Heq as -> ->.
      assert (v = ip0) as -> by congruence. left.
    + right. by apply (IH ips0 eq_refl id source).
Qed.

Lemma add_source_ip_loop_fresh (existing_ips : list pyval)
    (answers out rest : list string) (ip : string) :
  CLI.add_source_ip_loop env existing_ips answers = (out, Some (ip, rest)) →
  CLI.ip_in ip existing_ips = false.
Proof.
  revert out. induction answers as [|a answers IH]; intros out; simpl.
  - done.
  - destruct (CLI.ip_in a existing_ips) eqn:Hdup.
    + destruct (CLI.add_source_ip_loop env existing_ips answers)
        as [out' r] eqn:Hloop.
      intros [= _ ->]. by apply (IH out').
    + destruct (valid_ipv4 env a).
      * intros [= _ -> _]. done.
      * destruct (CLI.add_source_ip_loop env existing_ips answers)
          as [out' r] eqn:Hloop.
        intros [= _ ->]. by apply (IH out').
Qed.

Lemma edit_source_ip_loop_fresh (current_ip : string)
    (existing_ips : list pyval) (answers out rest : list string)
    (ip : string) :
  CLI.edit_source_ip_loop env current_ip existing_ips answers
    = (out, Some (Some ip, rest)) →
  CLI.ip_in ip existing_ips = false.
Proof.
  revert out. induction answers as [|a answers IH]; intros out; simpl.
  - done.
  - destruct (String.eqb a ""); [done|].
    destruct (CLI.ip_in a existing_ips) eqn:Hdup.
    + destruct (CLI.edit_source_ip_loop env current_ip existing_ips answers)
        as [out' r] eqn:Hloop.
      intros [= _ ->]. by apply (IH out').
    + destruct (valid_ipv4 env a).
      * intros [= _ -> _]. done.
      * destruct (CLI.edit_source_ip_loop env current_ip existing_ips
                    answers) as [out' r] eqn:Hloop.
        intros [= _ ->]. by apply (IH out').
Qed.

(** C8: [update_source] merges field by field. When [source_id] exists and
    the merged dictionary passes validation, the source stored afterwards
    has the value of [updated_data] at every key [updated_data] names and
    its previous value at every other key, and every other source of the
    registry is as before. *)
Theorem update_source_merges_fields (self : SourceManager)
    (source_id : string) (existing updated_data : dict) :
  get_source self source_id = Some existing →
  validate_source env (updated_data ∪ existing) = Returned Valid →
  let self' := (update_source env self source_id updated_data).2 in
  ∃ stored,
    get_source self' source_id = Some stored ∧
    (∀ k, is_Some (updated_data !! k) → stored !! k = updated_data !! k) ∧
    (∀ k, updated_data !! k = None → stored !! k = existing !! k) ∧
    (∀ other, other ≠ source_id →
       get_source self' other = get_source self other).
Proof.
  unfold get_source. intros Hid Hvalid. unfold update_source.
  rewrite Hid, Hvalid.
  destruct (save_sources env _); simpl;
    (exists (updated_data ∪ existing); repeat split;
      [ apply lookup_insert_eq
      | intros k Hk; by apply lookup_union_l'
      | intros k Hk; by apply lookup_union_r
      | intros other Hne; by apply lookup_insert_ne ]).
Qed.

(** C9: [update_source] leaves the registry alone when validation fails.
    When [source_id] exists and the merged dictionary is refused with
    [error], the caller gets the failure with that error and the registry
    is the one it was. *)
Theorem update_source_invalid_keeps_registry (self : SourceManager)
    (source_id : string) (existing updated_data : dict) (error : string) :
  get_source self source_id = Some existing →
  validate_source env (updated_data ∪ existing) = Returned (Invalid error) →
  update_source env self source_id updated_data
    = (Returned (Failure error), self).
Proof.
  unfold get_source. intros Hid Hinvalid. unfold update_source.
  by rewrite Hid, Hinvalid.
Qed.

(** C10: [add_source] is not atomic with respect to persistence. When the
    source passes validation and [save_sources] then fails, the caller gets
    a failure, yet the source is in the registry and [get_sources] and
    [get_source] return it. *)
Theorem add_source_kept_when_save_fails (self : SourceManager)
    (source_data : dict) :
  validate_source env (set_defaults env source_data) = Returned Valid →
  save_sources env
    (<[uuid4 env := set_defaults env source_data]> (sources self)) = false →
  let '(answer, self') := add_source env self source_data in
  answer = Returned (Failure "Failed to save source configuration") ∧
  get_source self' (uuid4 env) = Some (set_defaults env source_data) ∧
  get_sources self' !! uuid4 env = Some (set_defaults env source_data).
Proof.
  intros Hvalid Hsave. rewrite (add_source_valid _ _ Hvalid). simpl.
  rewrite Hsave. unfold get_source, get_sources. simpl.
  by rewrite lookup_insert_eq.
Qed.

(** C5: the registry checks no uniqueness across sources. For every
    registry and every source that passes validation for itself,
    [add_source] succeeds (as far as [save_sources] saves the registry),
    stores the source under the drawn identifier and keeps every source
    that was there: nothing in it compares the new source with the stored
    ones, so it succeeds just as well when a stored source has the same
    [source_ip], or the same [protocol] and [listener_port]. The only
    refusal of a duplicate address is in the input loops of the CLI,
    which accept an address only when no source they compare with has
    it. *)
Theorem add_source_no_uniqueness_check :
  (∀ (self : SourceManager) (source_data : dict),
     validate_source env (set_defaults env source_data) = Returned Valid →
     save_sources env
       (<[uuid4 env := set_defaults env source_data]> (sources self))
       = true →
     let '(answer, self') := add_source env self source_data in
     answer = Returned (SuccessId (uuid4 env)) ∧
     get_source self' (uuid4 env) = Some (set_defaults env source_data) ∧
     (∀ other_id, other_id ≠ uuid4 env →
        get_source self' other_id = get_source self other_id)) ∧
  (∀ (self : SourceManager) (existing_ips : list pyval)
     (answers out rest : list string) (ip : string),
     CLI.add_existing_ips self = Returned existing_ips →
     CLI.add_source_ip_loop env existing_ips answers
       = (out, Some (ip, rest)) →
     ∀ id source, get_source self id = Some source →
       source !! "source_ip" ≠ Some (VStr ip)) ∧
  (∀ (self : SourceManager) (source_id current_ip : string)
     (existing_ips : list pyval) (answers out rest : list string)
     (ip : string),
     CLI.edit_existing_ips self source_id = Returned existing_ips →
     CLI.edit_source_ip_loop env current_ip existing_ips answers
       = (out, Some (Some ip, rest)) →
     ∀ id source, id ≠ source_id → get_source self id = Some source →
       source !! "source_ip" ≠ Some (VStr ip)).
Proof.
  split; [|split].
  - intros self source_data Hvalid Hsave.
    rewrite (add_source_valid _ _ Hvalid). simpl. rewrite Hsave.
    unfold get_source. simpl. split; [done|]. split.
    + apply lookup_insert_eq.
    + intros other_id Hne. by apply lookup_insert_ne.
  - intros self ips answers out rest ip Hips Hloop id source Hsrc Hip.
    apply add_source_ip_loop_fresh in Hloop.
    apply (source_ips_elem _ _ Hips id source) in Hip.
    + by rewrite (ip_in_elem _ _ Hip) in Hloop.
    + by apply elem_of_map_to_list.
  - intros self source_id current ips answers out rest ip Hips Hloop
      id source Hne Hsrc Hip.
    apply edit_source_ip_loop_fresh in Hloop.
    apply (source_ips_elem _ _ Hips id source) in Hip.
    + by rewrite (ip_in_elem _ _ Hip) in Hloop.
    + apply list_elem_of_filter. split; [done|].
      by apply elem_of_map_to_list.
Qed.

End registry_facts.

(** ** The two spellings of the folder kind *)

(** A target type that is neither ["Folder"] nor ["HEC"] is refused with
    the error of the target type. *)
Lemma validate_target_other (env : Env) (source_data : dict) (v : pyval) :
  source_data !! "target_type" = Some v →
  py_eq_str v "Folder" = false →
  py_eq_str v "HEC" = false →
  validate_target env source_data
    = Returned (Invalid "Target type must be either Folder or HEC").
Proof.
  intros Hv Hfolder Hhec. unfold validate_target, getitem.
  rewrite Hv. simpl. by rewrite Hfolder, Hhec.
Qed.

(** So is every source of target type ["FOLDER"] that reaches the test of
    the target. *)
Lemma validate_source_FOLDER_refused (env : Env) (source_data : dict)
    (v : pyval) (port : Z) :
  has_required source_data →
  source_data !! "listener_port" = Some v →
  py_int env v = Returned port →
  1 ≤ port ≤ 65535 →
  get_eq_str source_data "protocol" "UDP"
    || get_eq_str source_data "protocol" "TCP" = true →
  source_data !! "target_type" = Some (VStr "FOLDER") →
  validate_source env source_data
    = Returned (Invalid "Target type must be either Folder or HEC").
Proof.
  intros Hreq Hv Hint Hrange Hproto Htarget.
  rewrite (validate_source_target env _ _ _ Hreq Hv Hint Hrange Hproto).
  by apply (validate_target_other env _ _ Htarget).
Qed.

(** With the spelling ["Folder"] the sample source is accepted. *)
Lemma folder_source_valid :
  validate_source (sample_env (Response 200) true) folder_source
    = Returned Valid.
Proof. reflexivity. Qed.

(** C1, at the source the add-source flow of the CLI stores for a folder
    target (target type ["FOLDER"], required fields present, folder
    writable): [validate_source] refuses it with the error of the target
    type, in every environment, and [add_source] fails with that error and
    keeps the registry. *)
Theorem validate_source_refuses_cli_folder (env : Env)
    (self : SourceManager) :
  validate_source env cli_folder_source
    = Returned (Invalid "Target type must be either Folder or HEC") ∧
  add_source env self cli_folder_source
    = (Returned (Failure "Target type must be either Folder or HEC"), self).
Proof. split; reflexivity. Qed.

(** ** Defaults of [add_source] *)

Lemma set_defaults_protocol (env : Env) (source_data : dict) :
  source_data !! "protocol" = None →
  set_defaults env source_data !! "protocol"
    = Some (DEFAULT_UDP_PROTOCOL env).
Proof.
  intros Hnone. unfold set_defaults, contains. rewrite Hnone.
  repeat case_match; rewrite ?lookup_insert_ne by done;
    apply lookup_insert_eq.
Qed.

Lemma set_defaults_hec_batch_size (env : Env) (source_data : dict) :
  source_data !! "target_type" = Some (VStr "HEC") →
  source_data !! "batch_size" = None →
  set_defaults env source_data !! "batch_size"
    = Some (DEFAULT_HEC_BATCH_SIZE env).
Proof.
  intros Htarget Hnone. unfold set_defaults, contains, get_eq_str.
  destruct (source_data !! "protocol");
    rewrite ?lookup_insert_ne by done; rewrite Htarget, Hnone; simpl;
    apply lookup_insert_eq.
Qed.

Lemma set_defaults_Folder_batch_size (env : Env) (source_data : dict) :
  source_data !! "target_type" = Some (VStr "Folder") →
  source_data !! "batch_size" = None →
  set_defaults env source_data !! "batch_size"
    = Some (DEFAULT_FOLDER_BATCH_SIZE env).
Proof.
  intros Htarget Hnone. unfold set_defaults, contains, get_eq_str.
  destruct (source_data !! "protocol");
    rewrite ?lookup_insert_ne by done; rewrite Htarget, Hnone; simpl;
    apply lookup_insert_eq.
Qed.

(** The spelling ["FOLDER"] gets no default batch size. *)
Lemma set_defaults_FOLDER_no_batch_size (env : Env) (source_data : dict) :
  source_data !! "target_type" = Some (VStr "FOLDER") →
  source_data !! "batch_size" = None →
  set_defaults env source_data !! "batch_size" = None.
Proof.
  intros Htarget Hnone. unfold set_defaults, contains, get_eq_str.
  destruct (source_data !! "protocol");
    rewrite ?lookup_insert_ne by done; rewrite Htarget, ?Hnone; simpl;
    rewrite ?lookup_insert_ne by done; done.
Qed.

(** C7, at a source of the folder kind as the CLI stores it (["FOLDER"])
    that has no [batch_size]: [add_source] sets no default batch size, the
    dictionary is left as it came, and the source is then refused. *)
Theorem set_defaults_misses_cli_folder (env : Env) (self : SourceManager) :
  let source_data := delete "batch_size" cli_folder_source in
  set_defaults env source_data !! "batch_size" = None ∧
  set_defaults env source_data = source_data ∧
  add_source env self source_data
    = (Returned (Failure "Target type must be either Folder or HEC"), self).
Proof. repeat split; reflexivity. Qed.

(** ** Faults that reach the caller *)

(** A port that is [None] makes [validate_source] raise, whatever the
    other fields are. *)
Lemma validate_source_none_port (env : Env) (source_data : dict) :
  has_required source_data →
  source_data !! "listener_port" = Some VNone →
  validate_source env source_data = Raised TypeError.
Proof.
  intros Hreq Hport. by rewrite (validate_source_port env _ _ Hreq Hport).
Qed.

(** C4, at a source whose [listener_port] is [None] and at a folder source
    whose [folder_path] is a number: [int] and [Path] raise [TypeError],
    which no handler of [validate_source] catches, so [validate_source],
    [add_source] and [update_source] raise it to the caller. *)
Theorem validate_source_raises_type_error (env : Env)
    (self : SourceManager) :
  validate_source env none_port_source = Raised TypeError ∧
  validate_source env number_path_source = Raised TypeError ∧
  add_source env self none_port_source = (Raised TypeError, self) ∧
  update_source env {| sources := {[ "a1" := hec_source ]} |} "a1"
    {[ "listener_port" := VNone ]}
    = (Raised TypeError, {| sources := {[ "a1" := hec_source ]} |}).
Proof. repeat split; reflexivity. Qed.

(** C6, at a folder source whose [listener_port] is [None], a value that
    [int] does not read as an integer: [int] raises [TypeError], which the
    handler of the port check ([except ValueError]) lets through, so
    [validate_source] raises instead of refusing the source with the
    error of the port. *)
Theorem validate_source_none_port_not_refused (env : Env) :
  py_int env VNone = Raised TypeError ∧
  validate_source env none_port_folder_source = Raised TypeError ∧
  ∀ error,
    validate_source env none_port_folder_source ≠ Returned (Invalid error).
Proof. split; [reflexivity|]. split; [reflexivity|]. by intros error. Qed.

(** ** The HEC token in what the CLI displays *)

(** The detail view of a source does not read its token. *)
Lemma manage_source_hides_token (self : SourceManager) (source_id : string)
    (source : dict) (token1 token2 : pyval) :
  CLI._manage_source
    {| sources := <[source_id := <["hec_token" := token1]> source]>
                    (sources self) |} source_id
  = CLI._manage_source
      {| sources := <[source_id := <["hec_token" := token2]> source]>
                      (sources self) |} source_id.
Proof.
  unfold CLI._manage_source, get_source. simpl.
  rewrite !lookup_insert_eq.
  rewrite !bool_decide_eq_false_2 by apply insert_non_empty.
  unfold CLI.field, getitem, get_eq_str.
  by rewrite !lookup_insert_ne by done.
Qed.

(** The view of the health-check configuration does not read the token. *)
Lemma configure_health_check_hides_token (url token1 token2 : string)
    (seconds : Z) (is_running : bool) :
  CLI._configure_health_check
    {| CLI.config := Some {| CLI.hec_url := url; CLI.hec_token := token1;
                             CLI.interval := seconds |};
       CLI.running := is_running |}
  = CLI._configure_health_check
      {| CLI.config := Some {| CLI.hec_url := url; CLI.hec_token := token2;
                               CLI.interval := seconds |};
         CLI.running := is_running |}.
Proof. reflexivity. Qed.

(** C3, at a configured health check whose user keeps the current URL:
    the prompt for the token that [_update_health_check] displays holds
    the stored token between brackets, so two runs that differ only in the
    stored token display different text. *)
Theorem update_health_check_shows_token (env : Env) :
  "HEC Token [s3cr3t-A]: "
    ∈ (CLI._update_health_check env (health_check_with "s3cr3t-A") [""]).1 ∧
  (CLI._update_health_check env (health_check_with "s3cr3t-A") [""]).1
    ≠ (CLI._update_health_check env (health_check_with "s3cr3t-B") [""]).1.
Proof.
  split.
  - apply list_elem_of_In. vm_compute. tauto.
  - intros Heq. vm_compute in Heq. discriminate Heq.
Qed.

(** * Instances *)

Lemma update_source_merges_fields_witness :
  let updated_data : dict :=
    {[ "listener_port" := VInt 6515; "batch_size" := VInt 100 ]} in
  let self' :=
    (update_source (sample_env (Response 200) true) two_sources "a1"
       updated_data).2 in
  ∃ stored,
    get_source self' "a1" = Some stored ∧
    (∀ k, is_Some (updated_data !! k) → stored !! k = updated_data !! k) ∧
    (∀ k, updated_data !! k = None → stored !! k = hec_source !! k) ∧
    (∀ other, other ≠ "a1" →
       get_source self' other = get_source two_sources other).
Proof.
  intros updated_data.
  apply (update_source_merges_fields (sample_env (Response 200) true)
           two_sources "a1" hec_source updated_data); reflexivity.
Defined.

Lemma update_source_invalid_keeps_registry_witness :
  update_source (sample_env (Response 200) true) two_sources "a1"
    {[ "listener_port" := VInt 70000 ]}
  = (Returned (Failure "Listener port must be between 1 and 65535"),
     two_sources).
Proof.
  apply (update_source_invalid_keeps_registry
           (sample_env (Response 200) true) two_sources "a1" hec_source);
    reflexivity.
Defined.

Lemma add_source_kept_when_save_fails_witness :
  let '(answer, self') :=
    add_source (sample_env (Response 200) false) two_sources hec_source in
  answer = Returned (Failure "Failed to save source configuration") ∧
  get_source self' "3f2b8c1e-0d4a-4b6f-9a57-6c1d2e3f4a5b" = Some hec_source ∧
  get_sources self' !! "3f2b8c1e-0d4a-4b6f-9a57-6c1d2e3f4a5b"
    = Some hec_source.
Proof.
  apply (add_source_kept_when_save_fails (sample_env (Response 200) false)
           two_sources hec_source); reflexivity.
Defined.

Lemma add_source_no_uniqueness_check_witness :
  let env := sample_env (Response 200) true in
  (* the address of a stored source, on another port *)
  (same_ip_source !! "source_ip" = hec_source !! "source_ip" ∧
   same_ip_source !! "listener_port" ≠ hec_source !! "listener_port" ∧
   let '(answer, self') := add_source env two_sources same_ip_source in
   answer = Returned (SuccessId (uuid4 env)) ∧
   get_source self' (uuid4 env) = Some (set_defaults env same_ip_source) ∧
   (∀ other_id, other_id ≠ uuid4 env →
      get_source self' other_id = get_source two_sources other_id)) ∧
  (* the protocol and port of a stored source, at another address *)
  (same_binding_source !! "protocol" = hec_source !! "protocol" ∧
   same_binding_source !! "listener_port" = hec_source !! "listener_port" ∧
   same_binding_source !! "source_ip" ≠ hec_source !! "source_ip" ∧
   let '(answer, self') := add_source env two_sources same_binding_source in
   answer = Returned (SuccessId (uuid4 env)) ∧
   get_source self' (uuid4 env)
     = Some (set_defaults env same_binding_source) ∧
   (∀ other_id, other_id ≠ uuid4 env →
      get_source self' other_id = get_source two_sources other_id)) ∧
  (∀ id source, get_source two_sources id = Some source →
     source !! "source_ip" ≠ Some (VStr "10.0.0.9")) ∧
  (∀ id source, id ≠ "a1" → get_source two_sources id = Some source →
     source !! "source_ip" ≠ Some (VStr "10.0.0.8")).
Proof.
  intros env.
  destruct (add_source_no_uniqueness_check env) as (Hadd & Hcli & Hedit).
  split; [|split; [|split]].
  - split; [reflexivity|]. split; [discriminate|].
    apply (Hadd two_sources same_ip_source); reflexivity.
  - split; [reflexivity|]. split; [reflexivity|]. split; [discriminate|].
    apply (Hadd two_sources same_binding_source); reflexivity.
  - eapply (Hcli two_sources _ ["10.0.0.8"; "10.0.0.9"]); reflexivity.
  - eapply (Hedit two_sources "a1" "10.0.0.8" _ ["10.0.0.7"; "10.0.0.8"]);
      reflexivity.
Defined.

Lemma validate_source_port_range_witness :
  let env := sample_env (Response 200) true in
  validate_source env (<["listener_port" := VStr "syslog"]> hec_source)
    = Returned (Invalid "Listener port must be a valid number") ∧
  validate_source env (<["listener_port" := VStr "70000"]> hec_source)
    = Returned (Invalid "Listener port must be between 1 and 65535") ∧
  validate_source env (<["listener_port" := VStr "6514"]> hec_source)
    = validate_protocol_and_target env
        (<["listener_port" := VStr "6514"]> hec_source).
Proof.
  intros env. split; [|split].
  - destruct (validate_source_port_range env
                (<["listener_port" := VStr "syslog"]> hec_source)
                (VStr "syslog")) as (Hnumber & _ & _); [reflexivity|].
    destruct Hnumber as (error & -> & Herror); [reflexivity|].
    rewrite Herror; [done|]. by apply has_required_by_loop.
  - destruct (validate_source_port_range env
                (<["listener_port" := VStr "70000"]> hec_source)
                (VStr "70000")) as (_ & Hrange & _); [reflexivity|].
    destruct (Hrange 70000) as (error & -> & Herror); [reflexivity|lia|].
    rewrite Herror; [done|]. by apply has_required_by_loop.
  - destruct (validate_source_port_range env
                (<["listener_port" := VStr "6514"]> hec_source)
                (VStr "6514")) as (_ & _ & Hpass); [reflexivity|].
    apply (Hpass 6514); [reflexivity|lia|]. by apply has_required_by_loop.
Defined.

Lemma hec_connection_test_only_200_witness :
  validate_source (sample_env (Response 200) true) hec_source
    = Returned Valid ∧
  validate_source (sample_env (Response 404) true) hec_source
    = Returned (Invalid "HEC connection test failed with status code: 404") ∧
  validate_source (sample_env (PostRaised "Connection refused") true)
      hec_source
    = Returned (Invalid "HEC connection test failed: Connection refused").
Proof.
  split; [|split].
  - destruct (hec_connection_test_only_200 (sample_env (Response 200) true)
                hec_source (VInt 6514)
                (VStr "https://siem.example:8088/services/collector")
                (VStr "s3cr3t-A") (VStr "proxy") 6514)
      as (Hok & _ & _);
      [ by apply has_required_by_loop | reflexivity | reflexivity | lia
      | reflexivity | reflexivity | reflexivity | reflexivity | reflexivity
      | ].
    by apply Hok.
  - destruct (hec_connection_test_only_200 (sample_env (Response 404) true)
                hec_source (VInt 6514)
                (VStr "https://siem.example:8088/services/collector")
                (VStr "s3cr3t-A") (VStr "proxy") 6514)
      as (_ & Hstatus & _);
      [ by apply has_required_by_loop | reflexivity | reflexivity | lia
      | reflexivity | reflexivity | reflexivity | reflexivity | reflexivity
      | ].
    by apply (Hstatus 404).
  - destruct (hec_connection_test_only_200
                (sample_env (PostRaised "Connection refused") true)
                hec_source (VInt 6514)
                (VStr "https://siem.example:8088/services/collector")
                (VStr "s3cr3t-A") (VStr "proxy") 6514)
      as (_ & _ & Hraised);
      [ by apply has_required_by_loop | reflexivity | reflexivity | lia
      | reflexivity | reflexivity | reflexivity | reflexivity | reflexivity
      | ].
    by apply Hraised.
Defined.

(** C2, as stated, fails: status 201 is a 2xx status, and the HEC source
    whose endpoint answers with it does not pass validation; it is refused
    with the error that names the status. *)
Lemma hec_status_201_refused :
  let env := sample_env (Response 201) true in
  200 ≤ 201 < 300 ∧
  has_required hec_source ∧
  hec_source !! "target_type" = Some (VStr "HEC") ∧
  requests_post env (VStr "https://siem.example:8088/services/collector")
    (VStr "s3cr3t-A") (VStr "proxy") = Response 201 ∧
  validate_source env hec_source ≠ Returned Valid ∧
  validate_source env hec_source
    = Returned (Invalid "HEC connection test failed with status code: 201").
Proof.
  repeat split; try reflexivity; try lia; try discriminate.
  by apply has_required_by_loop.
Qed.

(** * Further properties of the registry *)

Ltac in_required :=
  unfold required_fields; rewrite !elem_of_cons; tauto.

Section registry_more.
Context (env : Env).

Lemma py_eq_str_true (v : pyval) (s : string) :
  py_eq_str v s = true ↔ v = VStr s.
Proof.
  destruct v as [| b | n | t]; simpl; try (split; [done | by intros [=]]).
  rewrite String.eqb_eq. split; [by intros -> | by intros [= ->]].
Qed.

Lemma get_eq_str_true (d : dict) (k s : string) :
  get_eq_str d k s = true ↔ d !! k = Some (VStr s).
Proof.
  unfold get_eq_str. destruct (d !! k) as [v|]; [|split; by intros ?].
  rewrite py_eq_str_true. split; [by intros -> | by intros [= ->]].
Qed.

Lemma protocol_accepted (source_data : dict) :
  get_eq_str source_data "protocol" "UDP"
    || get_eq_str source_data "protocol" "TCP" = true ↔
  source_data !! "protocol" = Some (VStr "UDP") ∨
  source_data !! "protocol" = Some (VStr "TCP").
Proof. by rewrite orb_true_iff, !get_eq_str_true. Qed.

(** The folder test passes exactly for a string path that exists or can be
    created, and in which the test file can be written. *)
Lemma validate_folder_target_valid (source_data : dict) :
  validate_folder_target env source_data = Returned Valid ↔
  ∃ path, source_data !! "folder_path" = Some (VStr path) ∧
    (path_exists env path = true ∨ makedirs env path = None) ∧
    write_test_file env path = None.
Proof.
  unfold validate_folder_target. split.
  - destruct (source_data !! "folder_path") as [[| b | n | path]|]; try done.
    simpl. intros Hvalid. exists path. split; [done|].
    destruct (path_exists env path); simpl in Hvalid.
    + destruct (write_test_file env path); [done|]. split; [by left|done].
    + destruct (makedirs env path); [done|].
      destruct (write_test_file env path); [done|]. split; [by right|done].
  - intros (path & -> & Hcreate & Hwrite). simpl. rewrite Hwrite.
    destruct (path_exists env path); [done|].
    destruct Hcreate as [?| ->]; done.
Qed.

(** The HEC test passes exactly when URL and token are there and the POST
    answers 200. *)
Lemma validate_hec_target_valid (source_data : dict) (name : pyval) :
  source_data !! "source_name" = Some name →
  validate_hec_target env source_data = Returned Valid ↔
  ∃ url token, source_data !! "hec_url" = Some url ∧
    source_data !! "hec_token" = Some token ∧
    requests_post env url token name = Response 200.
Proof.
  intros Hname. unfold validate_hec_target. rewrite Hname. split.
  - destruct (source_data !! "hec_url") as [url|]; [|done].
    destruct (source_data !! "hec_token") as [token|]; [|done].
    destruct (requests_post env url token name) as [status|msg] eqn:Hpost;
      [|done].
    destruct (status =? 200) eqn:Hstatus; [|done].
    apply Z.eqb_eq in Hstatus as ->. intros _. by exists url, token.
  - intros (url & token & -> & -> & ->). done.
Qed.

Lemma validate_target_valid (source_data : dict) (name : pyval) :
  source_data !! "source_name" = Some name →
  validate_target env source_data = Returned Valid ↔
  (source_data !! "target_type" = Some (VStr "Folder") ∧
   validate_folder_target env source_data = Returned Valid) ∨
  (source_data !! "target_type" = Some (VStr "HEC") ∧
   validate_hec_target env source_data = Returned Valid).
Proof.
  intros Hname. unfold validate_target, getitem. split.
  - destruct (source_data !! "target_type") as [target|]; [|done]. simpl.
    destruct (py_eq_str target "Folder") eqn:Hfolder.
    { apply py_eq_str_true in Hfolder as ->. by left. }
    destruct (py_eq_str target "HEC") eqn:Hhec; [|done].
    apply py_eq_str_true in Hhec as ->. by right.
  - intros [[-> Hvalid]|[-> Hvalid]]; done.
Qed.

(** [validate_source] accepts exactly when each of its four stages does. *)
Lemma validate_source_valid_stages (source_data : dict) :
  validate_source env source_data = Returned Valid ↔
  has_required source_data ∧
  (∃ v port, source_data !! "listener_port" = Some v ∧
     py_int env v = Returned port ∧ 1 ≤ port ≤ 65535) ∧
  (source_data !! "protocol" = Some (VStr "UDP") ∨
   source_data !! "protocol" = Some (VStr "TCP")) ∧
  validate_target env source_data = Returned Valid.
Proof.
  split.
  - intros Hvalid.
    destruct (first_missing required_fields source_data) as [field|]
      eqn:Hmiss.
    { by rewrite (validate_source_missing env _ _ Hmiss) in Hvalid. }
    apply has_required_by_loop in Hmiss as Hreq.
    destruct (Hreq "listener_port") as [v Hv]; [in_required|].
    rewrite (validate_source_port env _ _ Hreq Hv) in Hvalid.
    destruct (py_int env v) as [port|[]] eqn:Hint; try done.
    destruct ((port <? 1) || (port >? 65535)) eqn:Hrange; [done|].
    apply port_accepted_iff in Hrange.
    unfold validate_protocol_and_target in Hvalid.
    destruct (get_eq_str source_data "protocol" "UDP"
              || get_eq_str source_data "protocol" "TCP") eqn:Hproto;
      [|done].
    apply protocol_accepted in Hproto. simpl in Hvalid.
    repeat split; try done. by exists v, port.
  - intros (Hreq & (v & port & Hv & Hint & Hrange) & Hproto & Htarget).
    apply protocol_accepted in Hproto.
    by rewrite (validate_source_target env _ _ _ Hreq Hv Hint Hrange Hproto).
Qed.

(** An accepted source has the shape [stored_ok]. *)
Lemma valid_stored_ok (source_data : dict) :
  validate_source env source_data = Returned Valid →
  stored_ok env source_data.
Proof.
  intros Hvalid.
  destruct (proj1 (validate_source_valid_stages _) Hvalid)
    as (Hreq & Hport & Hproto & Htarget).
  split; [done|]. split; [done|]. split; [done|].
  destruct (Hreq "source_name") as [name Hname]; [in_required|].
  destruct (proj1 (validate_target_valid _ _ Hname) Htarget)
    as [[Hkind Hok]|[Hkind Hok]].
  - left. split; [done|].
    destruct (proj1 (validate_folder_target_valid _) Hok)
      as (path & Hpath & _).
    by exists path.
  - right. split; [done|].
    destruct (proj1 (validate_hec_target_valid _ _ Hname) Hok)
      as (url & token & Hurl & Htoken & _).
    rewrite Hurl, Htoken. by split.
Qed.

(** X1: [validate_source] accepts a source if and only if it has the four
    required fields, a port that [int] reads within 1..65535, protocol
    ["UDP"] or ["TCP"], and either target type ["Folder"] with a string
    [folder_path] that exists or can be created and is writable, or target
    type ["HEC"] with a [hec_url] and a [hec_token] whose POST answers
    200. *)
Theorem validate_source_valid_iff (source_data : dict) :
  validate_source env source_data = Returned Valid ↔
  has_required source_data ∧
  (∃ v port, source_data !! "listener_port" = Some v ∧
     py_int env v = Returned port ∧ 1 ≤ port ≤ 65535) ∧
  (source_data !! "protocol" = Some (VStr "UDP") ∨
   source_data !! "protocol" = Some (VStr "TCP")) ∧
  ((source_data !! "target_type" = Some (VStr "Folder") ∧
    ∃ path, source_data !! "folder_path" = Some (VStr path) ∧
      (path_exists env path = true ∨ makedirs env path = None) ∧
      write_test_file env path = None) ∨
   (source_data !! "target_type" = Some (VStr "HEC") ∧
    ∃ url token name, source_data !! "hec_url" = Some url ∧
      source_data !! "hec_token" = Some token ∧
      source_data !! "source_name" = Some name ∧
      requests_post env url token name = Response 200)).
Proof.
  rewrite validate_source_valid_stages. split.
  - intros (Hreq & Hport & Hproto & Htarget).
    split; [done|]. split; [done|]. split; [done|].
    destruct (Hreq "source_name") as [name Hname]; [in_required|].
    destruct (proj1 (validate_target_valid _ _ Hname) Htarget)
      as [[Hkind Hok]|[Hkind Hok]].
    + left. split; [done|]. by apply validate_folder_target_valid.
    + right. split; [done|].
      destruct (proj1 (validate_hec_target_valid _ _ Hname) Hok)
        as (url & token & ? & ? & ?).
      by exists url, token, name.
  - intros (Hreq & Hport & Hproto & Htarget).
    split; [done|]. split; [done|]. split; [done|].
    destruct (Hreq "source_name") as [name Hname]; [in_required|].
    apply (validate_target_valid _ _ Hname).
    destruct Htarget
      as [[Hkind Hok]|[Hkind (url & token & name' & ? & ? & Hn & ?)]].
    + left. split; [done|]. by apply validate_folder_target_valid.
    + right. split; [done|]. apply (validate_hec_target_valid _ _ Hname).
      exists url, token. split; [done|]. split; [done|]. congruence.
Qed.

(** *** What the three operations do to the registry *)

Lemma add_source_registry (self : SourceManager) (source_data : dict) :
  (add_source env self source_data).2 =
    match validate_source env (set_defaults env source_data) with
    | Returned Valid =>
        {| sources :=
             <[uuid4 env := set_defaults env source_data]> (sources self) |}
    | _ => self
    end.
Proof.
  unfold add_source.
  destruct (validate_source env (set_defaults env source_data)) as [[|]|];
    try done.
  simpl. by destruct (save_sources env _).
Qed.

Lemma update_source_registry (self : SourceManager) (source_id : string)
    (updated_data : dict) :
  (update_source env self source_id updated_data).2 =
    match sources self !! source_id with
    | Some existing =>
        match validate_source env (updated_data ∪ existing) with
        | Returned Valid =>
            {| sources :=
                 <[source_id := updated_data ∪ existing]> (sources self) |}
        | _ => self
        end
    | None => self
    end.
Proof.
  unfold update_source. destruct (sources self !! source_id); [|done].
  destruct (validate_source env _) as [[|]|]; try done.
  simpl. by destruct (save_sources env _).
Qed.

Lemma delete_source_registry (self : SourceManager) (source_id : string) :
  (delete_source env self source_id).2 =
    match sources self !! source_id with
    | Some existing =>
        if contains existing "source_name"
        then {| sources := delete source_id (sources self) |}
        else self
    | None => self
    end.
Proof.
  unfold delete_source, getitem, contains.
  destruct (sources self !! source_id) as [existing|]; [|done].
  destruct (existing !! "source_name"); [|done].
  simpl. by destruct (save_sources env _).
Qed.

(** X3: the three operations keep the registry well formed. If every
    stored source has the shape of an accepted one, so has every source
    stored after [add_source], after [update_source] and after
    [delete_source], whatever their arguments and whatever [save_sources]
    answers. *)
Theorem registry_ok_preserved (self : SourceManager) (source_id : string)
    (source_data : dict) :
  registry_ok env self →
  registry_ok env (add_source env self source_data).2 ∧
  registry_ok env (update_source env self source_id source_data).2 ∧
  registry_ok env (delete_source env self source_id).2.
Proof.
  intros Hok. split; [|split].
  - rewrite add_source_registry.
    destruct (validate_source env _) as [[|]|] eqn:Hvalid; try done.
    intros id source. simpl. rewrite lookup_insert.
    case_decide; [|by apply Hok]. intros [= <-]. by apply valid_stored_ok.
  - rewrite update_source_registry.
    destruct (sources self !! source_id) as [existing|]; [|done].
    destruct (validate_source env _) as [[|]|] eqn:Hvalid; try done.
    intros id source. simpl. rewrite lookup_insert.
    case_decide; [|by apply Hok]. intros [= <-]. by apply valid_stored_ok.
  - rewrite delete_source_registry.
    destruct (sources self !! source_id) as [existing|]; [|done].
    destruct (contains existing "source_name"); [|done].
    intros id source. simpl. rewrite lookup_delete.
    case_decide; [done|by apply Hok].
Qed.

(** X4: on a well-formed registry [delete_source] never raises: it
    returns a result for every identifier. *)
Theorem delete_source_returns_on_ok_registry (self : SourceManager)
    (source_id : string) :
  registry_ok env self →
  ∃ answer, (delete_source env self source_id).1 = Returned answer.
Proof.
  intros Hok. unfold delete_source, getitem.
  destruct (sources self !! source_id) as [existing|] eqn:Hid;
    [|by eexists].
  destruct (Hok _ _ Hid) as (Hreq & _).
  destruct (Hreq "source_name") as [name ->]; [in_required|].
  simpl. destruct (save_sources env _); by eexists.
Qed.

(** X5: [delete_source] of a source that has a name removes exactly that
    source: afterwards the identifier is free and every other source is
    as before. The removal stays even when [save_sources] fails, in which
    case the caller gets the failure of the save. *)
Theorem delete_source_removes (self : SourceManager) (source_id : string)
    (existing : dict) :
  get_source self source_id = Some existing →
  is_Some (existing !! "source_name") →
  let '(answer, self') := delete_source env self source_id in
  get_source self' source_id = None ∧
  (∀ other, other ≠ source_id →
     get_source self' other = get_source self other) ∧
  answer =
    (if save_sources env (delete source_id (sources self))
     then Returned Success
     else Returned (Failure "Failed to save source configuration")).
Proof.
  unfold get_source. intros Hid [name Hname].
  unfold delete_source, getitem. rewrite Hid, Hname. simpl.
  destruct (save_sources env _); simpl;
    (split; [apply lookup_delete_eq|]; split; [|done];
     intros other Hne; by apply lookup_delete_ne).
Qed.

(** X6: [update_source] never adds or removes a source: the identifiers
    of the registry are the same after it as before, for every identifier
    and every update, and an identifier that names no source gets the
    failure that says so. *)
Theorem update_source_keeps_ids (self : SourceManager) (source_id : string)
    (updated_data : dict) :
  dom (sources (update_source env self source_id updated_data).2)
    = dom (sources self) ∧
  (get_source self source_id = None →
   update_source env self source_id updated_data
     = (Returned (Failure
          ("Source with ID " +:+ source_id +:+ " does not exist")), self)).
Proof.
  split.
  - rewrite update_source_registry.
    destruct (sources self !! source_id) as [existing|] eqn:Hid; [|done].
    destruct (validate_source env _) as [[|]|]; try done.
    simpl. apply dom_insert_lookup_L. by rewrite Hid.
  - unfold get_source, update_source. by intros ->.
Qed.

(** X7: [add_source] touches the registry only at the identifier it
    draws, and only when validation passes: every other source is as
    before, a source that is refused or makes validation raise leaves the
    registry as it was, and an accepted one is stored under the drawn
    identifier even if that identifier already named a source. *)
Theorem add_source_frame (self : SourceManager) (source_data : dict) :
  let self' := (add_source env self source_data).2 in
  (∀ other, other ≠ uuid4 env →
     get_source self' other = get_source self other) ∧
  (validate_source env (set_defaults env source_data) ≠ Returned Valid →
     self' = self) ∧
  (validate_source env (set_defaults env source_data) = Returned Valid →
     get_source self' (uuid4 env) = Some (set_defaults env source_data)).
Proof.
  simpl. rewrite add_source_registry. unfold get_source.
  destruct (validate_source env _) as [[|]|]; simpl;
    (split; [|split]); try done.
  - intros other Hne. by apply lookup_insert_ne.
  - intros _. apply lookup_insert_eq.
Qed.

(** X8: adding a source under a free identifier and deleting it again
    gives back the registry one started from. *)
Theorem add_then_delete_restores (self : SourceManager)
    (source_data : dict) :
  get_source self (uuid4 env) = None →
  validate_source env (set_defaults env source_data) = Returned Valid →
  (delete_source env (add_source env self source_data).2 (uuid4 env)).2
    = self.
Proof.
  unfold get_source. intros Hfree Hvalid.
  rewrite delete_source_registry, add_source_registry, Hvalid. simpl.
  rewrite lookup_insert_eq.
  destruct (valid_stored_ok _ Hvalid) as (Hreq & _).
  destruct (Hreq "source_name") as [name Hname]; [in_required|].
  unfold contains. rewrite Hname.
  rewrite delete_insert_id by done. by destruct self.
Qed.

(** X9: [update_source] is not atomic with respect to persistence either.
    When the merged source passes validation and [save_sources] then
    fails, the caller gets a failure, yet the registry holds the merged
    source. *)
Theorem update_source_kept_when_save_fails (self : SourceManager)
    (source_id : string) (existing updated_data : dict) :
  get_source self source_id = Some existing →
  validate_source env (updated_data ∪ existing) = Returned Valid →
  save_sources env
    (<[source_id := updated_data ∪ existing]> (sources self)) = false →
  let '(answer, self') := update_source env self source_id updated_data in
  answer = Returned (Failure "Failed to save source configuration") ∧
  get_source self' source_id = Some (updated_data ∪ existing).
Proof.
  unfold get_source. intros Hid Hvalid Hsave. unfold update_source.
  rewrite Hid, Hvalid. simpl. rewrite Hsave. simpl.
  split; [done|]. apply lookup_insert_eq.
Qed.

(** X10: two updates of a source, each accepted, leave the registry as
    the single update with the second dictionary laid over the first. *)
Theorem update_source_twice (self : SourceManager) (source_id : string)
    (existing first second : dict) :
  get_source self source_id = Some existing →
  validate_source env (first ∪ existing) = Returned Valid →
  validate_source env (second ∪ (first ∪ existing)) = Returned Valid →
  (update_source env (update_source env self source_id first).2
     source_id second).2
  = (update_source env self source_id (second ∪ first)).2.
Proof.
  unfold get_source. intros Hid Hfirst Hsecond.
  rewrite !update_source_registry, Hid, Hfirst. simpl.
  rewrite lookup_insert_eq, Hsecond.
  rewrite <- (assoc_L (∪)), Hsecond. by rewrite insert_insert_eq.
Qed.

(** *** The defaults, key by key *)

Lemma set_defaults_lookup_other (source_data : dict) (k : string) :
  k ≠ "protocol" → k ≠ "batch_size" →
  set_defaults env source_data !! k = source_data !! k.
Proof.
  intros Hp Hb. unfold set_defaults.
  repeat case_match; by rewrite ?lookup_insert_ne by done.
Qed.

Lemma set_defaults_lookup_protocol (source_data : dict) :
  set_defaults env source_data !! "protocol"
    = Some (default (DEFAULT_UDP_PROTOCOL env) (source_data !! "protocol")).
Proof.
  unfold set_defaults, contains.
  destruct (source_data !! "protocol") as [proto|] eqn:Hproto; simpl;
    repeat case_match;
    rewrite ?lookup_insert_ne by done; by rewrite ?lookup_insert_eq.
Qed.

Lemma set_defaults_lookup_batch_size (source_data : dict) :
  set_defaults env source_data !! "batch_size" =
    match source_data !! "batch_size" with
    | Some batch => Some batch
    | None =>
        if get_eq_str source_data "target_type" "HEC"
        then Some (DEFAULT_HEC_BATCH_SIZE env)
        else if get_eq_str source_data "target_type" "Folder"
        then Some (DEFAULT_FOLDER_BATCH_SIZE env)
        else None
    end.
Proof.
  unfold set_defaults, contains, get_eq_str.
  destruct (source_data !! "protocol") as [proto|];
    rewrite ?lookup_insert_ne by done;
    destruct (source_data !! "batch_size") as [batch|] eqn:Hbatch;
    rewrite ?andb_true_r, ?andb_false_r; simpl;
    rewrite ?lookup_insert_ne by done; try done;
    destruct (source_data !! "target_type") as [target|]; simpl;
    rewrite ?lookup_insert_ne by done; try done;
    destruct (py_eq_str target "HEC"); simpl;
    rewrite ?lookup_insert_eq; try done;
    destruct (py_eq_str target "Folder"); simpl;
    rewrite ?lookup_insert_eq, ?lookup_insert_ne by done; done.
Qed.

(** X11: the defaults of [add_source] only fill gaps. Every entry of
    the dictionary is kept with its value, no key other than ["protocol"]
    and ["batch_size"] is added, a protocol is there afterwards, and
    setting the defaults a second time changes nothing. *)
Theorem set_defaults_only_fills_gaps (source_data : dict) :
  source_data ⊆ set_defaults env source_data ∧
  (∀ k, k ≠ "protocol" → k ≠ "batch_size" →
     set_defaults env source_data !! k = source_data !! k) ∧
  is_Some (set_defaults env source_data !! "protocol") ∧
  set_defaults env (set_defaults env source_data)
    = set_defaults env source_data.
Proof.
  split; [|split; [|split]].
  - apply map_subseteq_spec. intros k v Hk.
    destruct (decide (k = "protocol")) as [->|Hp].
    { by rewrite set_defaults_lookup_protocol, Hk. }
    destruct (decide (k = "batch_size")) as [->|Hb].
    { by rewrite set_defaults_lookup_batch_size, Hk. }
    by rewrite set_defaults_lookup_other.
  - apply set_defaults_lookup_other.
  - rewrite set_defaults_lookup_protocol. by eexists.
  - apply map_eq. intros k.
    destruct (decide (k = "protocol")) as [->|Hp].
    { by rewrite !set_defaults_lookup_protocol. }
    destruct (decide (k = "batch_size")) as [->|Hb].
    { rewrite set_defaults_lookup_batch_size.
      unfold get_eq_str at 1 2.
      rewrite (set_defaults_lookup_other _ "target_type") by done.
      fold (get_eq_str source_data "target_type" "HEC").
      fold (get_eq_str source_data "target_type" "Folder").
      rewrite set_defaults_lookup_batch_size.
      destruct (source_data !! "batch_size"); [done|].
      by repeat case_match. }
    by rewrite !set_defaults_lookup_other.
Qed.

End registry_more.

(** * Further properties of the CLI *)

Section cli_more.
Context (env : Env).

(** *** Input loops *)

Lemma add_source_port_loop_range (answers out rest : list string)
    (port : Z) :
  CLI.add_source_port_loop env answers = (out, Some (port, rest)) →
  1 ≤ port ≤ 65535.
Proof.
  revert out. induction answers as [|a answers IH]; intros out; simpl.
  - done.
  - destruct (String.eqb a ""); [intros [= _ <- _]; lia|].
    destruct (int_of_str env a) as [n|].
    + destruct ((1 <=? n) && (n <=? 65535)) eqn:Hrange.
      * intros [= _ <- _]. apply andb_true_iff in Hrange as [H1 H2].
        apply Z.leb_le in H1, H2. lia.
      * destruct (CLI.add_source_port_loop env answers) as [out' r].
        intros [= _ ->]. by apply (IH out').
    + destruct (CLI.add_source_port_loop env answers) as [out' r].
      intros [= _ ->]. by apply (IH out').
Qed.

Lemma edit_source_port_loop_range (current_port : pyval)
    (answers out rest : list string) (port : Z) :
  CLI.edit_source_port_loop env current_port answers
    = (out, Some (Some port, rest)) →
  1 ≤ port ≤ 65535.
Proof.
  revert out. induction answers as [|a answers IH]; intros out; simpl.
  - done.
  - destruct (String.eqb a ""); [done|].
    destruct (int_of_str env a) as [n|].
    + destruct ((1 <=? n) && (n <=? 65535)) eqn:Hrange.
      * intros [= _ <- _]. apply andb_true_iff in Hrange as [H1 H2].
        apply Z.leb_le in H1, H2. lia.
      * destruct (CLI.edit_source_port_loop env current_port answers)
          as [out' r].
        intros [= _ ->]. by apply (IH out').
    + destruct (CLI.edit_source_port_loop env current_port answers)
        as [out' r].
      intros [= _ ->]. by apply (IH out').
Qed.

(** X12: a port that a port loop of the CLI accepts, for an addition or
    for an edit, lies within 1..65535, and a source with the required
    fields that carries it passes the port check of [validate_source]:
    its answer is that of the checks after the port. *)
Theorem cli_port_passes_validation :
  (∀ (answers out rest : list string) (port : Z),
     CLI.add_source_port_loop env answers = (out, Some (port, rest)) →
     1 ≤ port ≤ 65535 ∧
     ∀ source_data, has_required source_data →
       source_data !! "listener_port" = Some (VInt port) →
       validate_source env source_data
         = validate_protocol_and_target env source_data) ∧
  (∀ (current_port : pyval) (answers out rest : list string) (port : Z),
     CLI.edit_source_port_loop env current_port answers
       = (out, Some (Some port, rest)) →
     1 ≤ port ≤ 65535 ∧
     ∀ source_data, has_required source_data →
       source_data !! "listener_port" = Some (VInt port) →
       validate_source env source_data
         = validate_protocol_and_target env source_data).
Proof.
  assert (∀ port, 1 ≤ port ≤ 65535 →
    ∀ source_data, has_required source_data →
      source_data !! "listener_port" = Some (VInt port) →
      validate_source env source_data
        = validate_protocol_and_target env source_data) as Hpass.
  { intros port Hrange source_data Hreq Hport.
    rewrite (validate_source_port env _ _ Hreq Hport). simpl.
    apply port_accepted_iff in Hrange. by rewrite Hrange. }
  split.
  - intros answers out rest port Hloop.
    apply add_source_port_loop_range in Hloop. split; [done|by apply Hpass].
  - intros current answers out rest port Hloop.
    apply edit_source_port_loop_range in Hloop.
    split; [done|by apply Hpass].
Qed.

Lemma add_source_ip_loop_valid (existing_ips : list pyval)
    (answers out rest : list string) (ip : string) :
  CLI.add_source_ip_loop env existing_ips answers = (out, Some (ip, rest)) →
  valid_ipv4 env ip = true.
Proof.
  revert out. induction answers as [|a answers IH]; intros out; simpl.
  - done.
  - destruct (CLI.ip_in a existing_ips).
    + destruct (CLI.add_source_ip_loop env existing_ips answers)
        as [out' r].
      intros [= _ ->]. by apply (IH out').
    + destruct (valid_ipv4 env a) eqn:Hvalid.
      * by intros [= _ <- _].
      * destruct (CLI.add_source_ip_loop env existing_ips answers)
          as [out' r].
        intros [= _ ->]. by apply (IH out').
Qed.

Lemma edit_source_ip_loop_valid (current_ip : string)
    (existing_ips : list pyval) (answers out rest : list string)
    (ip : string) :
  CLI.edit_source_ip_loop env current_ip existing_ips answers
    = (out, Some (Some ip, rest)) →
  valid_ipv4 env ip = true ∧ ip ≠ "".
Proof.
  revert out. induction answers as [|a answers IH]; intros out; simpl.
  - done.
  - destruct (String.eqb a "") eqn:Hempty; [done|].
    apply String.eqb_neq in Hempty.
    destruct (CLI.ip_in a existing_ips).
    + destruct (CLI.edit_source_ip_loop env current_ip existing_ips answers)
        as [out' r].
      intros [= _ ->]. by apply (IH out').
    + destruct (valid_ipv4 env a) eqn:Hvalid.
      * by intros [= _ <- _].
      * destruct (CLI.edit_source_ip_loop env current_ip existing_ips
                    answers) as [out' r].
        intros [= _ ->]. by apply (IH out').
Qed.

(** *** The arguments of [configure] *)

Lemma hec_url_loop_http (current_url : string)
    (answers out rest : list string) (url : string) :
  CLI.hec_url_loop current_url answers = (out, Some (url, rest)) →
  CLI.is_http_url url = true.
Proof.
  revert out. induction answers as [|a answers IH]; intros out; simpl.
  - done.
  - destruct (negb _ && CLI.is_http_url _) eqn:Hok.
    + intros [= _ <- _]. by apply andb_true_iff in Hok as [_ ?].
    + destruct (CLI.hec_url_loop current_url answers) as [out' r].
      intros [= _ ->]. by apply (IH out').
Qed.

Lemma hec_token_loop_nonempty (current_token : string)
    (answers out rest : list string) (token : string) :
  CLI.hec_token_loop current_token answers = (out, Some (token, rest)) →
  token ≠ "".
Proof.
  revert out. induction answers as [|a answers IH]; intros out; simpl.
  - done.
  - destruct (negb (String.eqb _ "")) eqn:Hok.
    + intros [= _ <- _]. apply negb_true_iff in Hok.
      by apply String.eqb_neq.
    + destruct (CLI.hec_token_loop current_token answers) as [out' r].
      intros [= _ ->]. by apply (IH out').
Qed.

Lemma interval_loop_positive (current_interval : pyval)
    (answers out rest : list string) (seconds : pyval) :
  CLI.interval_loop env current_interval answers
    = (out, Some (seconds, rest)) →
  seconds = current_interval ∨ ∃ n, seconds = VInt n ∧ 0 < n.
Proof.
  revert out. induction answers as [|a answers IH]; intros out; simpl.
  - done.
  - destruct (String.eqb a ""); [intros [= _ <- _]; by left|].
    destruct (int_of_str env a) as [n|].
    + destruct (n >? 0) eqn:Hpos.
      * intros [= _ <- _]. right. exists n. split; [done|].
        rewrite Z.gtb_ltb in Hpos. by apply Z.ltb_lt.
      * destruct (CLI.interval_loop env current_interval answers)
          as [out' r].
        intros [= _ ->]. by apply (IH out').
    + destruct (CLI.interval_loop env current_interval answers)
        as [out' r].
      intros [= _ ->]. by apply (IH out').
Qed.

(** X14: whenever [_update_health_check] gets as far as calling
    [configure], the URL it passes starts with ["http://"] or
    ["https://"], the token is not empty, and the interval is either the
    current one (the default when nothing is configured) or an integer
    above zero. *)
Theorem update_health_check_configure_args (health_check : CLI.HealthCheck)
    (answers out : list string) (url token : string) (seconds : pyval) :
  CLI._update_health_check env health_check answers
    = (out, Some (url, token, seconds)) →
  CLI.is_http_url url = true ∧
  token ≠ "" ∧
  (seconds = from_option (λ c, VInt (CLI.interval c))
               (DEFAULT_HEALTH_CHECK_INTERVAL env)
               (CLI.config health_check)
   ∨ ∃ n, seconds = VInt n ∧ 0 < n).
Proof.
  unfold CLI._update_health_check.
  destruct (CLI.hec_url_loop _ answers) as [out1 [[url' rest1]|]] eqn:Hurl;
    [|done].
  destruct (CLI.hec_token_loop _ rest1) as [out2 [[token' rest2]|]]
    eqn:Htoken; [|done].
  destruct (CLI.interval_loop env _ rest2) as [out3 [[seconds' rest3]|]]
    eqn:Hinterval; [|done].
  intros [= _ <- <- <-].
  split; [by eapply hec_url_loop_http|].
  split; [by eapply hec_token_loop_nonempty|].
  by eapply interval_loop_positive.
Qed.

(** *** Views of a source *)

Lemma stored_ok_lookups (source : dict) :
  stored_ok env source →
  ∃ name ip port protocol target,
    source !! "source_name" = Some name ∧
    source !! "source_ip" = Some ip ∧
    source !! "listener_port" = Some port ∧
    source !! "protocol" = Some protocol ∧
    source !! "target_type" = Some target ∧
    py_eq_str target "FOLDER" = false ∧
    (py_eq_str target "HEC" = true → is_Some (source !! "hec_url")).
Proof.
  intros (Hreq & _ & Hproto & Htarget).
  destruct (Hreq "source_name") as [name Hname]; [in_required|].
  destruct (Hreq "source_ip") as [ip Hip]; [in_required|].
  destruct (Hreq "listener_port") as [port Hport]; [in_required|].
  assert (∃ protocol, source !! "protocol" = Some protocol)
    as [protocol Hprotocol] by (destruct Hproto; by eexists).
  destruct Htarget as [[Hkind _]|[Hkind [Hurl _]]];
    eexists name, ip, port, protocol, _;
    (repeat split; [done..| |]); try done.
Qed.

(** X15: the detail view of a source is the same whatever its token is,
    and on a well-formed registry it is displayed to the end without an
    exception. *)
Theorem manage_source_view :
  (∀ (self : SourceManager) (source_id : string) (source : dict)
     (token1 token2 : pyval),
     CLI._manage_source
       {| sources := <[source_id := <["hec_token" := token1]> source]>
                       (sources self) |} source_id
     = CLI._manage_source
         {| sources := <[source_id := <["hec_token" := token2]> source]>
                         (sources self) |} source_id) ∧
  (∀ (self : SourceManager) (source_id : string),
     registry_ok env self → (CLI._manage_source self source_id).2 = None).
Proof.
  split; [apply manage_source_hides_token|].
  intros self source_id Hok. unfold CLI._manage_source, get_source.
  destruct (sources self !! source_id) as [source|] eqn:Hid; [|done].
  case_bool_decide; [done|].
  destruct (stored_ok_lookups _ (Hok _ _ Hid))
    as (name & ip & port & protocol & target
        & Hname & Hip & Hport & Hprotocol & Htarget & Hfolder & Hhec).
  unfold CLI.field, getitem, get_eq_str.
  rewrite Hname, Hip, Hport, Hprotocol, Htarget, Hfolder. simpl.
  destruct (py_eq_str target "HEC"); [|done].
  destruct Hhec as [url ->]; done.
Qed.

(** X16: the details of a source in the status view are the same whatever
    its token is, and for a well-formed source they are displayed to the
    end without an exception. *)
Theorem status_source_details_view :
  (∀ (source : dict) (token1 token2 : pyval),
     CLI.status_source_details (<["hec_token" := token1]> source)
     = CLI.status_source_details (<["hec_token" := token2]> source)) ∧
  (∀ source : dict,
     stored_ok env source → (CLI.status_source_details source).2 = None).
Proof.
  split.
  - intros source token1 token2.
    unfold CLI.status_source_details, CLI.field, CLI.get_or, getitem,
      get_eq_str.
    by rewrite !lookup_insert_ne by done.
  - intros source Hok.
    destruct (stored_ok_lookups _ Hok)
      as (name & ip & port & protocol & target
          & Hname & Hip & Hport & Hprotocol & Htarget & Hfolder & Hhec).
    unfold CLI.status_source_details, CLI.field, getitem, get_eq_str.
    rewrite Hname, Hip, Hport, Hprotocol, Htarget, Hfolder. simpl.
    by destruct (py_eq_str target "HEC").
Qed.

(** *** The name cell of the status table *)

(** X17: the name cell of a row of the status table, counted in
    characters, is never longer than 25, and left-justified to width 25
    it is exactly 25 wide; a name of at most 25 characters is shown as it
    is, whatever its characters are, and a longer one as its first 23
    characters and two dots. *)
Theorem status_source_name_width {char : Type} (dot space : char)
    (name : list char) :
  let cell := CLI.status_source_name dot name in
  (length cell ≤ 25)%nat ∧
  length (CLI.ljust space 25 cell) = 25%nat ∧
  ((length name ≤ 25)%nat → cell = name) ∧
  ((25 < length name)%nat → cell = take 23 name ++ [dot; dot]).
Proof.
  simpl. unfold CLI.status_source_name.
  destruct (25 <? length name)%nat eqn:Hlong.
  - apply Nat.ltb_lt in Hlong.
    assert (length (take 23 name ++ [dot; dot]) = 25%nat) as Hlen.
    { rewrite length_app, length_take_le by lia. done. }
    split; [lia|]. split; [|split; [lia|done]].
    unfold CLI.ljust. rewrite length_app, length_replicate. lia.
  - apply Nat.ltb_ge in Hlong. split; [done|]. split; [|split; [done|lia]].
    unfold CLI.ljust. rewrite length_app, length_replicate. lia.
Qed.

(** *** Deleting through the CLI *)

(** X18: [_delete_source] changes the registry only after the answer [y]
    or [Y]: with no answer or any other answer the registry is as before;
    with that answer, a source that has a name is removed and nothing is
    raised. *)
Theorem cli_delete_needs_confirmation (self : SourceManager)
    (source_id : string) (answers : list string) :
  ((∀ confirm, head answers = Some confirm → CLI.is_yes confirm = false) →
   (CLI._delete_source env self source_id answers).2 = self) ∧
  (∀ confirm source,
     head answers = Some confirm → CLI.is_yes confirm = true →
     get_source self source_id = Some source →
     is_Some (source !! "source_name") →
     CLI._delete_source env self source_id answers
       = (None, {| sources := delete source_id (sources self) |})).
Proof.
  unfold CLI._delete_source. split.
  - intros Hno. destruct (get_source self source_id) as [source|]; [|done].
    case_bool_decide; [done|].
    destruct (getitem source "source_name"); [|done].
    destruct answers as [|confirm rest]; [done|].
    by rewrite (Hno confirm eq_refl).
  - intros confirm source Hhead Hyes Hid [name Hname].
    rewrite Hid. destruct answers as [|c rest]; [done|].
    injection Hhead as ->.
    rewrite bool_decide_eq_false_2
      by (intros ->; by rewrite lookup_empty in Hname).
    unfold get_source in Hid. unfold getitem, delete_source.
    rewrite Hname, Hyes, Hid. simpl. unfold getitem. rewrite Hname.
    by destruct (save_sources env _).
Qed.

End cli_more.

(** * The add-source flow of the CLI *)

Section add_source_flow_facts.
Context (env : Env) (lib : CLI.PyLib).

Lemma target_type_loop_kind (answers rest : list string)
    (target_type : string) :
  CLI.target_type_loop answers = Some (target_type, rest) →
  target_type = "FOLDER" ∨ target_type = "HEC".
Proof.
  induction answers as [|a answers IH]; simpl; [done|].
  destruct (CLI.is_letter "f" "F" a); [intros [= <- _]; by left|].
  destruct (CLI.is_letter "h" "H" a); [intros [= <- _]; by right|done].
Qed.

Lemma add_hec_url_loop_http (answers rest : list string) (url : string) :
  CLI.add_hec_url_loop answers = Some (url, rest) →
  CLI.is_http_url url = true.
Proof.
  induction answers as [|a answers IH]; simpl; [done|].
  destruct (CLI.is_http_url a) eqn:Hhttp; [by intros [= <- _]|done].
Qed.

Lemma set_defaults_complete (source_data : dict) :
  is_Some (source_data !! "protocol") →
  is_Some (source_data !! "batch_size") →
  set_defaults env source_data = source_data.
Proof.
  intros [protocol Hp] [batch Hb]. unfold set_defaults, contains.
  rewrite Hp, Hb. simpl. by rewrite !andb_false_r.
Qed.

(** The facts about the dictionary of the flow that the two theorems
    below share. *)
Lemma add_source_data_facts (self : SourceManager)
    (answers : list string) (source_data : dict) :
  CLI.add_source_data env lib self answers = Returned (Some source_data) →
  has_required source_data ∧
  (∃ port, source_data !! "listener_port" = Some (VInt port) ∧
     1 ≤ port ≤ 65535) ∧
  (source_data !! "protocol" = Some (VStr "UDP") ∨
   source_data !! "protocol" = Some (VStr "TCP")) ∧
  (∃ ip, source_data !! "source_ip" = Some (VStr ip) ∧
     valid_ipv4 env ip = true ∧
     ∀ id source, get_source self id = Some source →
       source !! "source_ip" ≠ Some (VStr ip)) ∧
  is_Some (source_data !! "batch_size") ∧
  ((source_data !! "target_type" = Some (VStr "FOLDER") ∧
    ∃ path, source_data !! "folder_path" = Some (VStr path)) ∨
   (source_data !! "target_type" = Some (VStr "HEC") ∧
    ∃ url token, source_data !! "hec_url" = Some (VStr url) ∧
      CLI.is_http_url url = true ∧
      source_data !! "hec_token" = Some (VStr token) ∧ token ≠ "")).
Proof.
  unfold CLI.add_source_data.
  destruct answers as [|source_name answers]; [done|].
  destruct (String.eqb source_name ""); [done|].
  destruct (CLI.add_existing_ips self) as [existing_ips|] eqn:Hips; [|done].
  simpl.
  destruct (CLI.add_source_ip_loop env existing_ips answers)
    as [out1 [[source_ip answers1]|]] eqn:Hip; [|done].
  simpl.
  destruct (CLI.add_source_port_loop env answers1)
    as [out2 [[port answers2]|]] eqn:Hport; [|done].
  simpl. destruct answers2 as [|protocol answers2]; [done|].
  destruct (CLI.target_type_loop answers2) as [[target_type answers3]|]
    eqn:Htarget; [|done].
  apply add_source_port_loop_range in Hport.
  pose proof (add_source_ip_loop_valid _ _ _ _ _ _ Hip) as Hvalid.
  assert (∀ id source, get_source self id = Some source →
            source !! "source_ip" ≠ Some (VStr source_ip)) as Hfresh.
  { intros id source Hsrc Hsame.
    apply add_source_ip_loop_fresh in Hip.
    assert (VStr source_ip ∈ existing_ips) as Hin.
    { apply (source_ips_elem _ _ Hips id source); [|done].
      by apply elem_of_map_to_list. }
    by rewrite (ip_in_elem _ _ Hin) in Hip. }
  assert (∀ d : dict,
    d !! "source_name" = Some (VStr source_name) →
    d !! "source_ip" = Some (VStr source_ip) →
    d !! "listener_port" = Some (VInt port) →
    d !! "target_type" = Some (VStr target_type) →
    has_required d) as Hreq.
  { intros d H1 H2 H3 H4 field Hin. unfold required_fields in Hin.
    rewrite !elem_of_cons in Hin.
    destruct Hin as [->|[->|[->|[->|Hin]]]]; [by eexists..|].
    by apply elem_of_nil in Hin. }
  assert (∀ d : dict,
    d !! "protocol" = Some (VStr (if CLI.is_letter "t" "T" protocol
                                  then "TCP" else "UDP")) →
    d !! "protocol" = Some (VStr "UDP") ∨
    d !! "protocol" = Some (VStr "TCP")) as Hproto.
  { intros d ->. destruct (CLI.is_letter "t" "T" protocol); auto. }
  destruct (target_type_loop_kind _ _ _ Htarget) as [-> | ->]; simpl.
  - destruct (CLI.folder_path_loop env lib answers3)
      as [[folder_path answers4]|]; [|done].
    destruct answers4 as [|batch answers4]; [done|].
    destruct (CLI.read_batch_size env lib _ batch) as [batch_size|];
      [|done].
    simpl. intros [= <-].
    split; [apply Hreq; by simplify_map_eq|].
    split; [exists port; split; [by simplify_map_eq|done]|].
    split; [apply Hproto; by simplify_map_eq|].
    split; [exists source_ip; split; [by simplify_map_eq|done]|].
    split; [by simplify_map_eq|].
    left. split; [by simplify_map_eq|].
    exists folder_path. by simplify_map_eq.
  - destruct (CLI.add_hec_url_loop answers3) as [[hec_url answers4]|]
      eqn:Hurl; [|done].
    destruct answers4 as [|hec_token answers4]; [done|].
    destruct (String.eqb hec_token "") eqn:Hempty; [done|].
    destruct answers4 as [|batch answers4]; [done|].
    destruct (CLI.read_batch_size env lib _ batch) as [batch_size|];
      [|done].
    simpl. intros [= <-].
    split; [apply Hreq; by simplify_map_eq|].
    split; [exists port; split; [by simplify_map_eq|done]|].
    split; [apply Hproto; by simplify_map_eq|].
    split; [exists source_ip; split; [by simplify_map_eq|done]|].
    split; [by simplify_map_eq|].
    right. split; [by simplify_map_eq|].
    exists hec_url, hec_token.
    split; [by simplify_map_eq|].
    split; [by eapply add_hec_url_loop_http|].
    split; [by simplify_map_eq|]. by apply String.eqb_neq.
Qed.

(** X19: the dictionary that [_add_source] hands to [add_source] always
    has the four required fields, an integer port within 1..65535,
    protocol ["UDP"] or ["TCP"], a batch size, and an address that passed
    the IPv4 test and that no source of the registry has; its target type
    is ["FOLDER"] with a folder path, or ["HEC"] with a URL that starts
    with ["http://"] or ["https://"] and a token that is not empty. The
    defaults of [add_source] leave it as it is, and [validate_source]
    judges it on its target alone: it is never refused for a missing
    field, for its port or for its protocol. *)
Theorem cli_add_source_data_shape (self : SourceManager)
    (answers : list string) (source_data : dict) :
  CLI.add_source_data env lib self answers = Returned (Some source_data) →
  (has_required source_data ∧
   (∃ port, source_data !! "listener_port" = Some (VInt port) ∧
      1 ≤ port ≤ 65535) ∧
   (source_data !! "protocol" = Some (VStr "UDP") ∨
    source_data !! "protocol" = Some (VStr "TCP")) ∧
   (∃ ip, source_data !! "source_ip" = Some (VStr ip) ∧
      valid_ipv4 env ip = true ∧
      ∀ id source, get_source self id = Some source →
        source !! "source_ip" ≠ Some (VStr ip)) ∧
   is_Some (source_data !! "batch_size") ∧
   ((source_data !! "target_type" = Some (VStr "FOLDER") ∧
     ∃ path, source_data !! "folder_path" = Some (VStr path)) ∨
    (source_data !! "target_type" = Some (VStr "HEC") ∧
     ∃ url token, source_data !! "hec_url" = Some (VStr url) ∧
       CLI.is_http_url url = true ∧
       source_data !! "hec_token" = Some (VStr token) ∧ token ≠ ""))) ∧
  set_defaults env source_data = source_data ∧
  validate_source env source_data = validate_target env source_data.
Proof.
  intros Hdata. pose proof (add_source_data_facts _ _ _ Hdata) as Hfacts.
  split; [done|].
  destruct Hfacts
    as (Hreq & (port & Hport & Hrange) & Hproto & _ & Hbatch & _).
  split.
  - apply set_defaults_complete; [|done]. destruct Hproto; by eexists.
  - apply (validate_source_target env _ (VInt port) port); try done.
    by apply protocol_accepted.
Qed.

(** X20: through [_add_source] the registry changes in one way only: a
    source of target type ["HEC"] whose endpoint answered the test POST
    with 200 is stored under the drawn identifier. In every other run,
    and so whenever the user chose a folder target, the registry is as
    before. *)
Theorem cli_add_source_adds_only_hec (self : SourceManager)
    (answers : list string) :
  let self' := (CLI._add_source env lib self answers).2 in
  self' = self ∨
  ∃ source_data url token name,
    CLI.add_source_data env lib self answers
      = Returned (Some source_data) ∧
    source_data !! "target_type" = Some (VStr "HEC") ∧
    source_data !! "hec_url" = Some (VStr url) ∧
    source_data !! "hec_token" = Some (VStr token) ∧
    source_data !! "source_name" = Some name ∧
    requests_post env (VStr url) (VStr token) name = Response 200 ∧
    self' = {| sources := <[uuid4 env := source_data]> (sources self) |}.
Proof.
  simpl. unfold CLI._add_source.
  destruct (CLI.add_source_data env lib self answers)
    as [[source_data|]|] eqn:Hdata; [|by left..].
  destruct (add_source_data_facts _ _ _ Hdata)
    as (Hreq & (port & Hport & Hrange) & Hproto & _ & Hbatch & Htarget).
  assert (set_defaults env source_data = source_data) as Hdefaults.
  { apply set_defaults_complete; [|done]. destruct Hproto; by eexists. }
  assert ((let '(answer, self') := add_source env self source_data in
           match answer with
           | Returned _ => (None, self')
           | Raised e => (Some e, self')
           end).2 = (add_source env self source_data).2) as ->.
  { by destruct (add_source env self source_data) as [[?|?] ?]. }
  rewrite add_source_registry, Hdefaults.
  destruct (validate_source env source_data) as [[|error]|e] eqn:Hvalid;
    [|by left..].
  destruct (proj1 (validate_source_valid_stages env _) Hvalid)
    as (_ & _ & _ & Hok).
  destruct (Hreq "source_name") as [name Hname]; [in_required|].
  destruct (proj1 (validate_target_valid env _ _ Hname) Hok)
    as [[Hkind _]|[Hkind Hhec]].
  - destruct Htarget as [[Hfolder _]|[Hhec' _]]; congruence.
  - destruct Htarget
      as [[Hfolder _]|[_ (url & token & Hurl & _ & Htoken & _)]];
      [congruence|].
    destruct (proj1 (validate_hec_target_valid env _ _ Hname) Hhec)
      as (url' & token' & Hurl' & Htoken' & Hpost).
    right. exists source_data, url, token, name.
    split; [done|]. split; [done|]. split; [done|]. split; [done|].
    split; [done|]. split; [congruence|done].
Qed.

End add_source_flow_facts.

(** * Instances of the further properties *)

Lemma two_sources_ok :
  registry_ok (sample_env (Response 200) true) two_sources.
Proof.
  intros id source Hsource. unfold two_sources in Hsource.
  simpl in Hsource.
  apply lookup_insert_Some in Hsource as [[_ <-]|[_ Hsource]].
  - by apply valid_stored_ok.
  - apply lookup_singleton_Some in Hsource as [_ <-].
    by apply valid_stored_ok.
Qed.

Lemma cli_hec_data_built :
  CLI.add_source_data (sample_env (Response 200) true) sample_lib
    two_sources cli_hec_answers = Returned (Some cli_hec_data).
Proof. reflexivity. Qed.

Lemma registry_ok_preserved_witness :
  let env := sample_env (Response 200) true in
  registry_ok env (add_source env two_sources cli_hec_data).2 ∧
  registry_ok env (update_source env two_sources "a1" cli_hec_data).2 ∧
  registry_ok env (delete_source env two_sources "a1").2.
Proof.
  intros env.
  apply (registry_ok_preserved env two_sources "a1" cli_hec_data).
  apply two_sources_ok.
Defined.

Lemma delete_source_returns_on_ok_registry_witness :
  ∃ answer,
    (delete_source (sample_env (Response 200) true) two_sources "b2").1
      = Returned answer.
Proof.
  apply (delete_source_returns_on_ok_registry
           (sample_env (Response 200) true) two_sources "b2").
  apply two_sources_ok.
Defined.

Lemma delete_source_removes_witness :
  let env := sample_env (Response 200) false in
  let '(answer, self') := delete_source env two_sources "a1" in
  get_source self' "a1" = None ∧
  (∀ other, other ≠ "a1" →
     get_source self' other = get_source two_sources other) ∧
  answer =
    (if save_sources env (delete "a1" (sources two_sources))
     then Returned Success
     else Returned (Failure "Failed to save source configuration")).
Proof.
  intros env.
  apply (delete_source_removes env two_sources "a1" hec_source);
    [reflexivity|by eexists].
Defined.

Lemma add_then_delete_restores_witness :
  let env := sample_env (Response 200) true in
  (delete_source env (add_source env two_sources cli_hec_data).2
     (uuid4 env)).2 = two_sources.
Proof.
  intros env.
  apply (add_then_delete_restores env two_sources cli_hec_data);
    reflexivity.
Defined.

Lemma update_source_kept_when_save_fails_witness :
  let env := sample_env (Response 200) false in
  let updated_data : dict := {[ "listener_port" := VInt 6515 ]} in
  let '(answer, self') := update_source env two_sources "a1" updated_data in
  answer = Returned (Failure "Failed to save source configuration") ∧
  get_source self' "a1" = Some (updated_data ∪ hec_source).
Proof.
  intros env updated_data.
  apply (update_source_kept_when_save_fails env two_sources "a1"
           hec_source updated_data); reflexivity.
Defined.

Lemma update_source_twice_witness :
  let env := sample_env (Response 200) true in
  let first : dict :=
    {[ "listener_port" := VInt 6515; "protocol" := VStr "UDP" ]} in
  let second : dict := {[ "listener_port" := VInt 6516 ]} in
  (update_source env (update_source env two_sources "a1" first).2
     "a1" second).2
  = (update_source env two_sources "a1" (second ∪ first)).2.
Proof.
  intros env first second.
  apply (update_source_twice env two_sources "a1" hec_source first second);
    reflexivity.
Defined.

Lemma update_health_check_configure_args_witness :
  let env := sample_env (Response 200) true in
  CLI.is_http_url "https://siem.example:8088/services/collector" = true ∧
  "s3cr3t-D" ≠ "" ∧
  (VInt 30 = from_option (λ c, VInt (CLI.interval c))
               (DEFAULT_HEALTH_CHECK_INTERVAL env)
               (CLI.config (health_check_with "s3cr3t-A"))
   ∨ ∃ n, VInt 30 = VInt n ∧ 0 < n).
Proof.
  intros env.
  apply (update_health_check_configure_args env
           (health_check_with "s3cr3t-A")
           [ "ftp://siem.example"; ""; "s3cr3t-D"; "0"; "soon"; "30" ]
           (CLI._update_health_check env (health_check_with "s3cr3t-A")
              [ "ftp://siem.example"; ""; "s3cr3t-D"; "0"; "soon"; "30" ]).1).
  reflexivity.
Defined.

Lemma status_source_name_width_witness :
  (* twenty times the character U+00E9, then a name of thirty *)
  CLI.status_source_name 46%nat (replicate 20 233%nat)
    = replicate 20 233%nat ∧
  length (CLI.ljust 32%nat 25 (replicate 20 233%nat)) = 25%nat ∧
  CLI.status_source_name 46%nat (replicate 30 233%nat)
    = replicate 23 233%nat ++ [46%nat; 46%nat].
Proof.
  destruct (status_source_name_width 46%nat 32%nat (replicate 20 233%nat))
    as (_ & Hwidth & Hshort & _).
  destruct (status_source_name_width 46%nat 32%nat (replicate 30 233%nat))
    as (_ & _ & _ & Hlong).
  assert (length (replicate 20 233%nat) ≤ 25)%nat as Hlen
    by (rewrite length_replicate; lia).
  split; [|split].
  - by apply Hshort.
  - rewrite (Hshort Hlen) in Hwidth. exact Hwidth.
  - rewrite Hlong; [done|]. rewrite length_replicate. lia.
Defined.

Lemma cli_add_source_data_shape_witness :
  let env := sample_env (Response 200) true in
  (has_required cli_hec_data ∧
   (∃ port, cli_hec_data !! "listener_port" = Some (VInt port) ∧
      1 ≤ port ≤ 65535) ∧
   (cli_hec_data !! "protocol" = Some (VStr "UDP") ∨
    cli_hec_data !! "protocol" = Some (VStr "TCP")) ∧
   (∃ ip, cli_hec_data !! "source_ip" = Some (VStr ip) ∧
      valid_ipv4 env ip = true ∧
      ∀ id source, get_source two_sources id = Some source →
        source !! "source_ip" ≠ Some (VStr ip)) ∧
   is_Some (cli_hec_data !! "batch_size") ∧
   ((cli_hec_data !! "target_type" = Some (VStr "FOLDER") ∧
     ∃ path, cli_hec_data !! "folder_path" = Some (VStr path)) ∨
    (cli_hec_data !! "target_type" = Some (VStr "HEC") ∧
     ∃ url token, cli_hec_data !! "hec_url" = Some (VStr url) ∧
       CLI.is_http_url url = true ∧
       cli_hec_data !! "hec_token" = Some (VStr token) ∧ token ≠ ""))) ∧
  set_defaults env cli_hec_data = cli_hec_data ∧
  validate_source env cli_hec_data = validate_target env cli_hec_data.
Proof.
  intros env.
  apply (cli_add_source_data_shape env sample_lib two_sources
           cli_hec_answers cli_hec_data).
  reflexivity.
Defined.

Lemma cli_port_passes_validation_witness :
  let env := sample_env (Response 200) true in
  (1 ≤ 6514 ≤ 65535 ∧
   validate_source env hec_source
     = validate_protocol_and_target env hec_source) ∧
  (1 ≤ 514 ≤ 65535 ∧
   validate_source env folder_source
     = validate_protocol_and_target env folder_source).
Proof.
  intros env.
  destruct (cli_port_passes_validation env) as [Hadd Hedit]. split.
  - destruct (Hadd ["70000"; "syslog"; "6514"]
                (CLI.add_source_port_loop env
                   ["70000"; "syslog"; "6514"]).1 [] 6514)
      as [Hrange Hpass]; [reflexivity|].
    split; [done|].
    apply Hpass; [by apply has_required_by_loop|reflexivity].
  - destruct (Hedit (VInt 6514) ["0"; "514"]
                (CLI.edit_source_port_loop env (VInt 6514) ["0"; "514"]).1
                [] 514)
      as [Hrange Hpass]; [reflexivity|].
    split; [done|].
    apply Hpass; [by apply has_required_by_loop|reflexivity].
Defined.

Lemma manage_source_view_witness :
  (CLI._manage_source two_sources "a1").2 = None ∧
  (CLI._manage_source two_sources "b2").2 = None.
Proof.
  destruct (manage_source_view (sample_env (Response 200) true))
    as [_ Hview].
  split; apply Hview, two_sources_ok.
Defined.

Lemma status_source_details_view_witness :
  (CLI.status_source_details hec_source).2 = None.
Proof.
  destruct (status_source_details_view (sample_env (Response 200) true))
    as [_ Hview].
  apply Hview. by apply valid_stored_ok.
Defined.

Lemma cli_delete_needs_confirmation_witness :
  let env := sample_env (Response 200) true in
  (CLI._delete_source env two_sources "a1" ["n"]).2 = two_sources ∧
  CLI._delete_source env two_sources "a1" ["Y"]
    = (None, {| sources := delete "a1" (sources two_sources) |}).
Proof.
  intros env. split.
  - destruct (cli_delete_needs_confirmation env two_sources "a1" ["n"])
      as [Hno _].
    apply Hno. by intros confirm [= <-].
  - destruct (cli_delete_needs_confirmation env two_sources "a1" ["Y"])
      as [_ Hyes].
    apply (Hyes "Y" hec_source); [reflexivity..|by eexists].
Defined.

Lemma update_source_keeps_ids_witness :
  let env := sample_env (Response 200) true in
  update_source env two_sources "c3" {[ "protocol" := VStr "UDP" ]}
    = (Returned (Failure "Source with ID c3 does not exist"), two_sources).
Proof.
  intros env.
  destruct (update_source_keeps_ids env two_sources "c3"
              {[ "protocol" := VStr "UDP" ]}) as [_ Hmissing].
  by apply Hmissing.
Defined.

Lemma add_source_frame_witness :
  let env := sample_env (Response 200) true in
  get_source (add_source env two_sources cli_hec_data).2 "a1"
    = Some hec_source ∧
  (add_source env two_sources cli_folder_source).2 = two_sources ∧
  get_source (add_source env two_sources cli_hec_data).2 (uuid4 env)
    = Some cli_hec_data.
Proof.
  intros env. split; [|split].
  - destruct (add_source_frame env two_sources cli_hec_data)
      as (Hother & _ & _).
    by rewrite Hother.
  - destruct (add_source_frame env two_sources cli_folder_source)
      as (_ & Hrefused & _).
    by apply Hrefused.
  - destruct (add_source_frame env two_sources cli_hec_data)
      as (_ & _ & Hstored).
    by apply Hstored.
Defined.

(** * The edit-source flow of the CLI *)

Section edit_source_flow_facts.
Context (env : Env) (lib : CLI.PyLib).

Lemma lookup_set_if_eq (k : string) (value : option pyval) (d : dict) :
  CLI.set_if k value d !! k
    = match value with Some v => Some v | None => d !! k end.
Proof. destruct value; simpl; [apply lookup_insert_eq|done]. Qed.

Lemma lookup_set_if_ne (k k' : string) (value : option pyval) (d : dict) :
  k ≠ k' → CLI.set_if k value d !! k' = d !! k'.
Proof. intros Hne. destruct value; simpl; [by apply lookup_insert_ne|done]. Qed.

Lemma edit_protocol_kind (new_protocol : string) (v : pyval) :
  CLI.edit_protocol new_protocol = Some v →
  v = VStr "TCP" ∨ v = VStr "UDP".
Proof.
  unfold CLI.edit_protocol.
  destruct (CLI.is_letter "t" "T" new_protocol); [intros [= <-]; by left|].
  destruct (CLI.is_letter "u" "U" new_protocol); [intros [= <-]; by right|].
  done.
Qed.

Lemma edit_keys_ok_set_if (self : SourceManager) (source_id k : string)
    (value : option pyval) (d : dict) :
  k ≠ "target_type" → k ≠ "listener_port" → k ≠ "protocol" →
  k ≠ "source_ip" →
  edit_keys_ok env self source_id d →
  edit_keys_ok env self source_id (CLI.set_if k value d).
Proof.
  intros H1 H2 H3 H4 (Htarget & Hport & Hproto & Hip).
  split; [|split; [|split]].
  - by rewrite lookup_set_if_ne.
  - intros v. rewrite lookup_set_if_ne by done. apply Hport.
  - intros v. rewrite lookup_set_if_ne by done. apply Hproto.
  - intros v. rewrite lookup_set_if_ne by done. apply Hip.
Qed.

Lemma edit_keys_ok_empty (self : SourceManager) (source_id : string) :
  edit_keys_ok env self source_id ∅.
Proof.
  split; [|split; [|split]]; [|intros v..]; by rewrite lookup_empty.
Qed.

Lemma edit_keys_ok_ip (self : SourceManager) (source_id : string)
    (new_ip : option string) (d : dict) :
  (∀ ip, new_ip = Some ip →
     valid_ipv4 env ip = true ∧
     ∀ id source, id ≠ source_id → get_source self id = Some source →
       source !! "source_ip" ≠ Some (VStr ip)) →
  edit_keys_ok env self source_id d →
  edit_keys_ok env self source_id (CLI.set_if "source_ip" (VStr <$> new_ip) d).
Proof.
  intros Hnew (Htarget & Hport & Hproto & Hip).
  split; [|split; [|split]].
  - by rewrite lookup_set_if_ne.
  - intros v. rewrite lookup_set_if_ne by done. apply Hport.
  - intros v. rewrite lookup_set_if_ne by done. apply Hproto.
  - intros v. rewrite lookup_set_if_eq.
    destruct new_ip as [ip|]; simpl; [|apply Hip].
    intros [= <-]. exists ip. destruct (Hnew ip eq_refl). by split.
Qed.

Lemma edit_keys_ok_port (self : SourceManager) (source_id : string)
    (new_port : option Z) (d : dict) :
  (∀ port, new_port = Some port → 1 ≤ port ≤ 65535) →
  edit_keys_ok env self source_id d →
  edit_keys_ok env self source_id
    (CLI.set_if "listener_port" (VInt <$> new_port) d).
Proof.
  intros Hrange (Htarget & Hport & Hproto & Hip).
  split; [|split; [|split]].
  - by rewrite lookup_set_if_ne.
  - intros v. rewrite lookup_set_if_eq.
    destruct new_port as [port|]; simpl; [|apply Hport].
    intros [= <-]. exists port. split; [done|by apply Hrange].
  - intros v. rewrite lookup_set_if_ne by done. apply Hproto.
  - intros v. rewrite lookup_set_if_ne by done. apply Hip.
Qed.

Lemma edit_keys_ok_protocol (self : SourceManager) (source_id : string)
    (new_protocol : string) (d : dict) :
  edit_keys_ok env self source_id d →
  edit_keys_ok env self source_id
    (CLI.set_if "protocol" (CLI.edit_protocol new_protocol) d).
Proof.
  intros (Htarget & Hport & Hproto & Hip).
  split; [|split; [|split]].
  - by rewrite lookup_set_if_ne.
  - intros v. rewrite lookup_set_if_ne by done. apply Hport.
  - intros v. rewrite lookup_set_if_eq.
    destruct (CLI.edit_protocol new_protocol) as [p|] eqn:Hp;
      [|apply Hproto].
    intros [= <-]. by apply (edit_protocol_kind new_protocol).
  - intros v. rewrite lookup_set_if_ne by done. apply Hip.
Qed.

(** The facts about the dictionary of the flow that the two theorems
    below share. *)
Lemma edit_source_data_facts (self : SourceManager) (source_id : string)
    (answers : list string) (updated_data : dict) :
  CLI.edit_source_data env lib self source_id answers
    = Returned (Some updated_data) →
  edit_keys_ok env self source_id updated_data.
Proof.
  unfold CLI.edit_source_data.
  destruct (get_source self source_id) as [source|]; [|done].
  case_bool_decide; [done|].
  destruct (getitem source "source_name") as [name|]; [|done]. simpl.
  destruct answers as [|new_name answers]; [done|].
  destruct (getitem source "source_ip") as [current_ip|]; [|done]. simpl.
  destruct (CLI.edit_existing_ips self source_id) as [existing_ips|]
    eqn:Hips; [|done].
  simpl.
  destruct (CLI.edit_source_ip_loop env _ existing_ips answers)
    as [out1 [[new_ip answers1]|]] eqn:Hip; [|done].
  simpl.
  destruct (getitem source "listener_port") as [current_port|]; [|done].
  simpl.
  destruct (CLI.edit_source_port_loop env current_port answers1)
    as [out2 [[new_port answers2]|]] eqn:Hport; [|done].
  simpl.
  destruct (getitem source "protocol") as [current_protocol|]; [|done].
  simpl. destruct answers2 as [|new_protocol answers2]; [done|].
  destruct (getitem source "target_type") as [target_type|]; [|done].
  simpl.
  assert (edit_keys_ok env self source_id
    (CLI.set_if "protocol" (CLI.edit_protocol new_protocol)
       (CLI.set_if "listener_port" (VInt <$> new_port)
          (CLI.set_if "source_ip" (VStr <$> new_ip)
             (CLI.set_if "source_name" (CLI.nonempty new_name) ∅)))))
    as Hbase.
  { apply edit_keys_ok_protocol, edit_keys_ok_port.
    { intros port ->. by eapply edit_source_port_loop_range. }
    apply edit_keys_ok_ip.
    { intros ip ->. split.
      - by eapply (edit_source_ip_loop_valid env).
      - intros id other Hne Hother Hsame.
        apply edit_source_ip_loop_fresh in Hip.
        assert (VStr ip ∈ existing_ips) as Hin.
        { apply (source_ips_elem _ _ Hips id other); [|done].
          apply list_elem_of_filter. split; [done|].
          by apply elem_of_map_to_list. }
        by rewrite (ip_in_elem _ _ Hin) in Hip. }
    apply edit_keys_ok_set_if; [done..|]. apply edit_keys_ok_empty. }
  destruct (py_eq_str target_type "FOLDER").
  - destruct (getitem source "folder_path"); [|done]. simpl.
    destruct answers2 as [|new_path answers2]; [done|].
    destruct (CLI.edit_folder_path env lib new_path) as [folder_path|];
      [|done].
    destruct answers2 as [|new_batch answers2]; [done|].
    destruct (CLI.edit_batch_size env lib new_batch) as [batch_size|];
      [|done].
    simpl. intros [= <-].
    apply edit_keys_ok_set_if; [done..|].
    by apply edit_keys_ok_set_if.
  - destruct (py_eq_str target_type "HEC"); [|by intros [= <-]].
    destruct (getitem source "hec_url"); [|done]. simpl.
    destruct (CLI.edit_hec_url_loop answers2) as [[hec_url answers3]|];
      [|done].
    destruct answers3 as [|new_token answers3]; [done|].
    destruct answers3 as [|new_batch answers3]; [done|].
    destruct (CLI.edit_batch_size env lib new_batch) as [batch_size|];
      [|done].
    simpl. intros [= <-].
    apply edit_keys_ok_set_if; [done..|].
    apply edit_keys_ok_set_if; [done..|].
    by apply edit_keys_ok_set_if.
Qed.

(** X21: the [updated_data] that [_edit_source] hands to [update_source]
    never names the target type; a port in it is an integer within
    1..65535, a protocol in it is ["TCP"] or ["UDP"], and an address in it
    passed the IPv4 test and is the address of no other source. Laid over
    a stored source that has the shape of an accepted one, it gives a
    source that [validate_source] judges on its target alone: the edit is
    never refused for a missing field, for its port or for its
    protocol. *)
Theorem cli_edit_source_data_shape (self : SourceManager)
    (source_id : string) (answers : list string)
    (source updated_data : dict) :
  CLI.edit_source_data env lib self source_id answers
    = Returned (Some updated_data) →
  get_source self source_id = Some source →
  stored_ok env source →
  (updated_data !! "target_type" = None ∧
   (∀ v, updated_data !! "listener_port" = Some v →
      ∃ port, v = VInt port ∧ 1 ≤ port ≤ 65535) ∧
   (∀ v, updated_data !! "protocol" = Some v →
      v = VStr "TCP" ∨ v = VStr "UDP") ∧
   (∀ v, updated_data !! "source_ip" = Some v →
      ∃ ip, v = VStr ip ∧ valid_ipv4 env ip = true ∧
        ∀ id other, id ≠ source_id → get_source self id = Some other →
          other !! "source_ip" ≠ Some (VStr ip))) ∧
  validate_source env (updated_data ∪ source)
    = validate_target env (updated_data ∪ source).
Proof.
  intros Hdata Hid (Hreq & (v & port & Hv & Hint & Hrange) & Hproto & _).
  pose proof (edit_source_data_facts _ _ _ _ Hdata) as Hkeys.
  split; [done|].
  destruct Hkeys as (_ & Hport' & Hproto' & _).
  assert (has_required (updated_data ∪ source)) as Hreq'.
  { intros field Hfield. apply lookup_union_is_Some. right.
    by apply Hreq. }
  assert (∃ v' port', (updated_data ∪ source) !! "listener_port" = Some v' ∧
            py_int env v' = Returned port' ∧ 1 ≤ port' ≤ 65535)
    as (v' & port' & Hv' & Hint' & Hrange').
  { rewrite lookup_union.
    destruct (updated_data !! "listener_port") as [w|] eqn:Hw.
    - destruct (Hport' w eq_refl) as (p & -> & Hp).
      exists (VInt p), p. rewrite Hv. by simpl.
    - exists v, port. by rewrite Hv. }
  apply (validate_source_target env _ v' port'); try done.
  apply protocol_accepted. rewrite !lookup_union.
  destruct (updated_data !! "protocol") as [w|] eqn:Hw.
  - destruct (Hproto' w eq_refl) as [-> | ->];
      destruct (source !! "protocol"); simpl; auto.
  - destruct Hproto as [-> | ->]; simpl; auto.
Qed.

(** X22: an edit through the CLI never adds or removes a source, leaves
    every other source as it was, and never changes the target type of
    the edited source, whatever the answers are. *)
Theorem cli_edit_keeps_target_type (self : SourceManager)
    (source_id : string) (answers : list string) (source : dict) :
  get_source self source_id = Some source →
  let self' := (CLI._edit_source env lib self source_id answers).2 in
  dom (sources self') = dom (sources self) ∧
  (∀ other, other ≠ source_id →
     get_source self' other = get_source self other) ∧
  ∃ source', get_source self' source_id = Some source' ∧
    source' !! "target_type" = source !! "target_type".
Proof.
  intros Hid. simpl.
  assert (dom (sources self) = dom (sources self) ∧
          (∀ other, other ≠ source_id →
             get_source self other = get_source self other) ∧
          ∃ source', get_source self source_id = Some source' ∧
            source' !! "target_type" = source !! "target_type") as Hsame.
  { split; [done|]. split; [done|]. by exists source. }
  unfold CLI._edit_source.
  destruct (CLI.edit_source_data env lib self source_id answers)
    as [[updated_data|]|] eqn:Hdata; [|done..].
  case_bool_decide; [done|].
  destruct (edit_source_data_facts _ _ _ _ Hdata) as (Htarget & _).
  assert ((let '(answer, self') :=
             update_source env self source_id updated_data in
           match answer with
           | Returned _ => (None, self')
           | Raised e => (Some e, self')
           end).2 = (update_source env self source_id updated_data).2)
    as ->.
  { by destruct (update_source env self source_id updated_data)
      as [[?|?] ?]. }
  rewrite update_source_registry. unfold get_source in *. rewrite Hid.
  destruct (validate_source env (updated_data ∪ source)) as [[|]|];
    [|done..].
  simpl. split; [|split].
  - apply dom_insert_lookup_L. by rewrite Hid.
  - intros other Hne. by apply lookup_insert_ne.
  - exists (updated_data ∪ source). split; [apply lookup_insert_eq|].
    by apply lookup_union_r.
Qed.

End edit_source_flow_facts.

(** * Instances of the edit-source flow *)

Lemma cli_edit_data_built :
  CLI.edit_source_data (sample_env (Response 200) true) sample_lib
    two_sources "a1" cli_edit_answers = Returned (Some cli_edit_data).
Proof. reflexivity. Qed.

Lemma cli_edit_source_data_shape_witness :
  let env := sample_env (Response 200) true in
  (cli_edit_data !! "target_type" = None ∧
   (∀ v, cli_edit_data !! "listener_port" = Some v →
      ∃ port, v = VInt port ∧ 1 ≤ port ≤ 65535) ∧
   (∀ v, cli_edit_data !! "protocol" = Some v →
      v = VStr "TCP" ∨ v = VStr "UDP") ∧
   (∀ v, cli_edit_data !! "source_ip" = Some v →
      ∃ ip, v = VStr ip ∧ valid_ipv4 env ip = true ∧
        ∀ id other, id ≠ "a1" → get_source two_sources id = Some other →
          other !! "source_ip" ≠ Some (VStr ip))) ∧
  validate_source env (cli_edit_data ∪ hec_source)
    = validate_target env (cli_edit_data ∪ hec_source).
Proof.
  intros env.
  apply (cli_edit_source_data_shape env sample_lib two_sources "a1"
           cli_edit_answers hec_source cli_edit_data);
    [reflexivity | reflexivity | by apply valid_stored_ok].
Defined.

Lemma cli_edit_keeps_target_type_witness :
  let env := sample_env (Response 200) true in
  let self' :=
    (CLI._edit_source env sample_lib two_sources "a1" cli_edit_answers).2 in
  dom (sources self') = dom (sources two_sources) ∧
  (∀ other, other ≠ "a1" →
     get_source self' other = get_source two_sources other) ∧
  ∃ source', get_source self' "a1" = Some source' ∧
    source' !! "target_type" = hec_source !! "target_type".
Proof.
  intros env.
  apply (cli_edit_keeps_target_type env sample_lib two_sources "a1"
           cli_edit_answers hec_source).
  reflexivity.
Defined.
